(** * ECH2O AOP design dashboard: the design-sizing engine

    A shallow embedding of [calculate_design_values] from [src/app.py]
    and the properties its specification states about it.

    Numbers.  The engine computes with Python floats and Python ints.
    Python ints are modelled by [Z].  Python floats are modelled by the
    exact rationals [Q]: every float constant of the source is the
    rational it denotes in decimal ([0.40] is [40 # 100]) and every float
    operation is the exact operation, so rounding, overflow and underflow
    of binary64 are outside this model.  The one place where rounding
    decides what the engine reports is the staging loop, whose test
    compares a product rounded at each iteration: the statements on the
    number of stages and on the recorded COD sequence are therefore about
    a second embedding, [calculate_design_values64], whose loop runs on
    binary64 values with the IEEE 754 operations of the standard
    library's [SpecFloat].  All other statements are about the exact
    arithmetic.

    Effects.  The function reads eight module-level variables set by the
    sidebar widgets and takes fourteen arguments; both are explicit
    records here.  It contains one [while] loop and one division whose
    divisor is not a constant, so it runs in a small outcome monad: a
    value, a raised exception, or running out of fuel in the loop. *)

From Stdlib Require Import ZArith QArith Qround Qpower Lqa Lia.
From Stdlib Require Import String DecimalString List Bool SpecFloat.
Import ListNotations.

Local Open Scope Q_scope.

(** ** Outcomes *)

Inductive exn : Type :=
| ZeroDivisionError.

Inductive outcome (A : Type) : Type :=
| Return (a : A)
| Raise (e : exn)
| OutOfFuel.

Arguments Return {A} a.
Arguments Raise {A} e.
Arguments OutOfFuel {A}.

Definition bind {A B : Type} (m : outcome A) (k : A -> outcome B) : outcome B :=
  match m with
  | Return a => k a
  | Raise e => Raise e
  | OutOfFuel => OutOfFuel
  end.

Notation "x <- m ;; k" := (bind m (fun x => k))
  (at level 61, m at next level, right associativity).

(** ** Python and numpy primitives used by the engine *)

(** [x / y] on floats: raises on a zero divisor. *)
Definition truediv (x y : Q) : outcome Q :=
  if Qeq_bool y 0 then Raise ZeroDivisionError else Return (x / y).

(** [np.ceil(x)]: the least integer not below [x], still a float. *)
Definition np_ceil (x : Q) : Q := inject_Z (Qceiling x).

(** [int(x)] on a float: truncation toward zero. *)
Definition int (x : Q) : Z := Z.quot (Qnum x) (Zpos (Qden x)).

(** [x > y] on floats. *)
Definition gt (x y : Q) : bool := negb (Qle_bool x y).

(** ** Inputs *)

(** The module-level variables read by the engine (sidebar widgets). *)
Module Sidebar.
Record t : Type := {
  flowrate : Q;
  cod_inlet : Q;
  cod_target : Q;
  initial_ph : Q;
  reactor_size : Q;
  php_conversion_rate : Q;
  electricity_cost : Q;
  chemical_cost_factor : Q
}.
End Sidebar.

(** The fourteen arguments of [calculate_design_values]. *)
Module Rates.
Record t : Type := {
  aop_reactor_unit_cost : Q;
  pump_unit_cost : Q;
  filter_unit_cost : Q;
  ph_adjustment_unit_cost : Q;
  ozone_generator_unit_cost : Q;
  operator_monthly_salary : Q;
  ozone_power_consumption : Q;
  pump_power_consumption : Q;
  chemicals_base_cost : Q;
  maintenance_factor : Q;
  piping_factor : Q;
  epc_factor : Q;
  container_20ft_cost : Q;
  container_40ft_cost : Q
}.
End Rates.

(** ** The result: the dictionary returned by the engine, key by key *)

Record DesignResult : Type := {
  flowrate : Q;
  cod_inlet : Q;
  cod_target : Q;
  initial_ph : Q;
  reactor_size : Q;
  cod_load_kg_per_day : Q;
  ozone_requirement_kg_per_day : Q;
  num_parallel_reactors_needed : Q;
  stages_needed : Z;
  num_reactor_trains : Z;
  total_reactors : Z;
  num_ozone_generators : Z;
  ozone_generator_cost : Q;
  cod_reduction_stages : list Q;
  pump_flow_rate_per_train : Q;
  total_pump_flow_rate : Q;
  recirculation_flow_rate : Q;
  recirculation_pumps_required : Z;
  total_influent_effluent_pumps : Z;
  total_pumps : Z;
  aop_reactor_cost : Q;
  pump_cost : Q;
  filter_cost : Q;
  filter_units : Z;
  ph_adjustment_cost : Q;
  piping_cost : Q;
  epc_cost : Q;
  total_capex : Q;
  monthly_ozone_power_cost : Q;
  daily_recirculation_energy : Q;
  monthly_pumping_cost : Q;
  monthly_chemical_cost : Q;
  monthly_labor_cost : Q;
  monthly_maintenance_cost : Q;
  total_monthly_opex : Q;
  electricity_cost : Q;
  chemical_cost_factor : Q;
  operators_required : Z;
  php_conversion_rate : Q;
  num_20ft_containers : Z;
  num_40ft_containers : Z;
  container_cost : Q;
  total_equipment_units : Z
}.

(** ** The engine *)

(** The COD staging loop,
    [while current_cod > cod_target: current_cod = current_cod * 0.40;
     cod_values.append(current_cod); stages_needed += 1],
    as a function of the three variables it updates. *)
Fixpoint cod_loop (fuel : nat) (cod_target current_cod : Q)
    (cod_values : list Q) (stages_needed : Z) : outcome (Q * list Q * Z) :=
  match fuel with
  | O => OutOfFuel
  | S fuel' =>
      if gt current_cod cod_target then
        let current_cod := current_cod * 0.40 in
        cod_loop fuel' cod_target current_cod
          (cod_values ++ [current_cod]) (stages_needed + 1)%Z
      else Return (current_cod, cod_values, stages_needed)
  end.

Definition calculate_design_values (fuel : nat) (g : Sidebar.t) (c : Rates.t)
    : outcome DesignResult :=
  let flowrate := Sidebar.flowrate g in
  let cod_inlet := Sidebar.cod_inlet g in
  let cod_target := Sidebar.cod_target g in
  let initial_ph := Sidebar.initial_ph g in
  let reactor_size := Sidebar.reactor_size g in
  let php_conversion_rate := Sidebar.php_conversion_rate g in
  let electricity_cost := Sidebar.electricity_cost g in
  let chemical_cost_factor := Sidebar.chemical_cost_factor g in
  let aop_reactor_unit_cost := Rates.aop_reactor_unit_cost c in
  let pump_unit_cost := Rates.pump_unit_cost c in
  let filter_unit_cost := Rates.filter_unit_cost c in
  let ph_adjustment_unit_cost := Rates.ph_adjustment_unit_cost c in
  let ozone_generator_unit_cost := Rates.ozone_generator_unit_cost c in
  let operator_monthly_salary := Rates.operator_monthly_salary c in
  let ozone_power_consumption := Rates.ozone_power_consumption c in
  let pump_power_consumption := Rates.pump_power_consumption c in
  let chemicals_base_cost := Rates.chemicals_base_cost c in
  let maintenance_factor := Rates.maintenance_factor c in
  let piping_factor := Rates.piping_factor c in
  let epc_factor := Rates.epc_factor c in
  let container_20ft_cost := Rates.container_20ft_cost c in
  let container_40ft_cost := Rates.container_40ft_cost c in
  (* Basic calculations *)
  let cod_load_kg_per_day := flowrate * cod_inlet / 1000 in
  let ozone_requirement_kg_per_day := 0.25 * cod_load_kg_per_day in
  (* AOP reactor calculations *)
  let reactor_volume_per_day := flowrate in
  let reactor_volume_per_hour := reactor_volume_per_day / 24 in
  let hourly_processing_capacity_per_reactor := reactor_size / 2 in
  ratio <- truediv reactor_volume_per_hour
             hourly_processing_capacity_per_reactor ;;
  let num_parallel_reactors_needed := np_ceil ratio in
  (* Ozone generators: figures computed but not used further *)
  let ozone_requirement_g_per_hour :=
    ozone_requirement_kg_per_day * 1000 / 24 in
  let ozone_capacity_per_generator := 200%Z in
  let ozone_capacity_per_reactor := (2 * ozone_capacity_per_generator)%Z in
  (* Stage-wise COD reduction *)
  let current_cod := cod_inlet in
  let stages_needed := 0%Z in
  let cod_values := [current_cod] in
  st <- cod_loop fuel cod_target current_cod cod_values stages_needed ;;
  let cod_values := snd (fst st) in
  let stages_needed := snd st in
  (* min 2 reactors, max 4 reactors per train *)
  let stages_needed := Z.max 2 (Z.min 4 stages_needed) in
  let num_reactor_trains := int (np_ceil num_parallel_reactors_needed) in
  let total_reactors := (num_reactor_trains * stages_needed)%Z in
  (* Ozone generators *)
  let num_ozone_generators := (total_reactors * 2)%Z in
  let ozone_generator_cost :=
    inject_Z num_ozone_generators * ozone_generator_unit_cost in
  (* Pumps *)
  let pump_flow_rate_per_train := reactor_size / 0.25 in
  let total_pump_flow_rate :=
    pump_flow_rate_per_train * inject_Z num_reactor_trains in
  let recirculation_flow_rate :=
    inject_Z total_reactors * reactor_size * 5 / 2 in
  let recirculation_pumps_required := 2%Z in
  (* CAPEX *)
  let aop_reactor_cost := aop_reactor_unit_cost * inject_Z total_reactors in
  let total_influent_effluent_pumps := (num_reactor_trains * 4)%Z in
  let total_pumps :=
    (total_influent_effluent_pumps + recirculation_pumps_required)%Z in
  let pump_cost := pump_unit_cost * inject_Z total_pumps in
  (* Sand filtration *)
  let filtration_loading_rate := 10 in
  let required_filter_area := total_pump_flow_rate / filtration_loading_rate in
  let filter_units := Z.max 2 (int (np_ceil (required_filter_area / 5))) in
  let filter_cost := filter_unit_cost * required_filter_area in
  (* pH adjustment *)
  let ph_adjustment_cost := ph_adjustment_unit_cost in
  (* Container housing *)
  let total_equipment_units := (total_reactors + filter_units)%Z in
  let container_20ft_capacity := 6%Z in
  let container_40ft_capacity := 12%Z in
  let containers :=
    if Qle_bool flowrate 15 then (1, 0)%Z
    else if (total_equipment_units <=? container_40ft_capacity)%Z
    then (0, 1)%Z
    else
      let num_40ft_containers :=
        (total_equipment_units / container_40ft_capacity)%Z in
      let remaining_units :=
        (total_equipment_units mod container_40ft_capacity)%Z in
      if (remaining_units >? 0)%Z then
        if (remaining_units <=? container_20ft_capacity)%Z
        then (1, num_40ft_containers)%Z
        else (0, num_40ft_containers + 1)%Z
      else (0, num_40ft_containers)%Z in
  let num_20ft_containers := fst containers in
  let num_40ft_containers := snd containers in
  let container_cost :=
    inject_Z num_20ft_containers * container_20ft_cost
    + inject_Z num_40ft_containers * container_40ft_cost in
  (* Piping, instrumentation and controls *)
  let piping_cost := (aop_reactor_cost + pump_cost) * piping_factor in
  (* Engineering, procurement and construction *)
  let direct_costs :=
    aop_reactor_cost + ozone_generator_cost + pump_cost + filter_cost
    + ph_adjustment_cost + piping_cost + container_cost in
  let epc_cost := direct_costs * epc_factor in
  let total_capex := direct_costs + epc_cost in
  (* OPEX, monthly *)
  let daily_ozone_energy :=
    ozone_requirement_kg_per_day * ozone_power_consumption in
  let monthly_ozone_energy := daily_ozone_energy * 30 in
  let monthly_ozone_power_cost := monthly_ozone_energy * electricity_cost in
  let daily_pumping_energy := flowrate * pump_power_consumption in
  let daily_recirculation_energy :=
    recirculation_flow_rate * 24 * pump_power_consumption in
  let total_daily_pumping_energy :=
    daily_pumping_energy + daily_recirculation_energy in
  let monthly_pumping_energy := total_daily_pumping_energy * 30 in
  let monthly_pumping_cost := monthly_pumping_energy * electricity_cost in
  let monthly_chemical_cost :=
    (flowrate * 30) * chemicals_base_cost * chemical_cost_factor in
  let operators_required :=
    Z.max 1 (int (np_ceil (inject_Z total_reactors / 8))) in
  let monthly_labor_cost :=
    inject_Z operators_required * operator_monthly_salary in
  let monthly_maintenance_cost := total_capex * maintenance_factor / 12 in
  let total_monthly_opex :=
    monthly_ozone_power_cost + monthly_pumping_cost + monthly_chemical_cost
    + monthly_labor_cost + monthly_maintenance_cost in
  Return {|
    flowrate := flowrate;
    cod_inlet := cod_inlet;
    cod_target := cod_target;
    initial_ph := initial_ph;
    reactor_size := reactor_size;
    cod_load_kg_per_day := cod_load_kg_per_day;
    ozone_requirement_kg_per_day := ozone_requirement_kg_per_day;
    num_parallel_reactors_needed := num_parallel_reactors_needed;
    stages_needed := stages_needed;
    num_reactor_trains := num_reactor_trains;
    total_reactors := total_reactors;
    num_ozone_generators := num_ozone_generators;
    ozone_generator_cost := ozone_generator_cost;
    cod_reduction_stages := cod_values;
    pump_flow_rate_per_train := pump_flow_rate_per_train;
    total_pump_flow_rate := total_pump_flow_rate;
    recirculation_flow_rate := recirculation_flow_rate;
    recirculation_pumps_required := recirculation_pumps_required;
    total_influent_effluent_pumps := total_influent_effluent_pumps;
    total_pumps := total_pumps;
    aop_reactor_cost := aop_reactor_cost;
    pump_cost := pump_cost;
    filter_cost := filter_cost;
    filter_units := filter_units;
    ph_adjustment_cost := ph_adjustment_cost;
    piping_cost := piping_cost;
    epc_cost := epc_cost;
    total_capex := total_capex;
    monthly_ozone_power_cost := monthly_ozone_power_cost;
    daily_recirculation_energy := daily_recirculation_energy;
    monthly_pumping_cost := monthly_pumping_cost;
    monthly_chemical_cost := monthly_chemical_cost;
    monthly_labor_cost := monthly_labor_cost;
    monthly_maintenance_cost := monthly_maintenance_cost;
    total_monthly_opex := total_monthly_opex;
    electricity_cost := electricity_cost;
    chemical_cost_factor := chemical_cost_factor;
    operators_required := operators_required;
    php_conversion_rate := php_conversion_rate;
    num_20ft_containers := num_20ft_containers;
    num_40ft_containers := num_40ft_containers;
    container_cost := container_cost;
    total_equipment_units := total_equipment_units
  |}.

(** ** Concrete inputs *)

(** A sidebar state with the given process values and the widget defaults
    for pH, conversion rate, electricity cost and chemical cost factor. *)
Definition sidebar (flowrate cod_inlet cod_target reactor_size : Q)
    : Sidebar.t := {|
  Sidebar.flowrate := flowrate;
  Sidebar.cod_inlet := cod_inlet;
  Sidebar.cod_target := cod_target;
  Sidebar.initial_ph := 7;
  Sidebar.reactor_size := reactor_size;
  Sidebar.php_conversion_rate := 58;
  Sidebar.electricity_cost := 0.19;
  Sidebar.chemical_cost_factor := 1
|}.

(** The standard rates at their widget defaults, except for the two
    container costs. *)
Definition rates (container_20ft_cost container_40ft_cost : Q) : Rates.t := {|
  Rates.aop_reactor_unit_cost := 650;
  Rates.pump_unit_cost := 650;
  Rates.filter_unit_cost := 650;
  Rates.ph_adjustment_unit_cost := 650;
  Rates.ozone_generator_unit_cost := 650;
  Rates.operator_monthly_salary := 450;
  Rates.ozone_power_consumption := 3;
  Rates.pump_power_consumption := 0.05;
  Rates.chemicals_base_cost := 0.25;
  Rates.maintenance_factor := 10 / 100;
  Rates.piping_factor := 30 / 100;
  Rates.epc_factor := 30 / 100;
  Rates.container_20ft_cost := container_20ft_cost;
  Rates.container_40ft_cost := container_40ft_cost
|}.

(** The widget defaults of the dashboard. *)
Definition default_sidebar : Sidebar.t := sidebar 10 1000 75 1.5.

Definition default_rates : Rates.t := rates 6000 7000.

(** ** Vocabulary of the specification *)

(** [n] is the natural stage count: the least number of successive
    multiplications of [cod_inlet] by 0.40 that reach a value at or
    below [cod_target]. *)
Definition natural_stage_count (cod_inlet cod_target : Q) (n : nat) : Prop :=
  cod_inlet * 0.40 ^ Z.of_nat n <= cod_target /\
  forall m : nat, (m < n)%nat -> cod_target < cod_inlet * 0.40 ^ Z.of_nat m.

(** The unclamped sequence [cod_inlet * 0.4^i for i = 0..n]. *)
Definition geometric_stages (cod_inlet : Q) (n : nat) : list Q :=
  map (fun i : nat => cod_inlet * 0.40 ^ Z.of_nat i) (seq 0 (S n)).

(** The validated process inputs of the engine contract. *)
Definition valid_process (g : Sidebar.t) : Prop :=
  0 < Sidebar.flowrate g /\
  0 < Sidebar.cod_target g /\
  Sidebar.cod_target g < Sidebar.cod_inlet g /\
  1 <= Sidebar.initial_ph g /\ Sidebar.initial_ph g <= 14 /\
  (Sidebar.reactor_size g == 1.5 \/ Sidebar.reactor_size g == 2).

(** The validated cost and consumption rates of the engine contract. *)
Definition valid_rates (g : Sidebar.t) (c : Rates.t) : Prop :=
  0 < Rates.aop_reactor_unit_cost c /\
  0 < Rates.pump_unit_cost c /\
  0 < Rates.filter_unit_cost c /\
  0 < Rates.ph_adjustment_unit_cost c /\
  0 < Rates.ozone_generator_unit_cost c /\
  0 < Rates.operator_monthly_salary c /\
  0 < Rates.ozone_power_consumption c /\
  0 < Rates.pump_power_consumption c /\
  0 < Rates.chemicals_base_cost c /\
  0 < Sidebar.chemical_cost_factor g /\
  (0 <= Rates.maintenance_factor c /\ Rates.maintenance_factor c <= 1) /\
  (0 <= Rates.piping_factor c /\ Rates.piping_factor c <= 1) /\
  (0 <= Rates.epc_factor c /\ Rates.epc_factor c <= 1) /\
  0 < Rates.container_20ft_cost c /\
  0 < Rates.container_40ft_cost c.

(** The engine returns [r]: every run with enough fuel for the loop ends
    in [Return r]. *)
Definition returns (g : Sidebar.t) (c : Rates.t) (r : DesignResult) : Prop :=
  exists n : nat, forall fuel : nat, (n < fuel)%nat ->
    calculate_design_values fuel g c = Return r.

(** The staging loop of the engine never exits: no amount of fuel is
    enough. *)
Definition staging_diverges (cod_inlet cod_target : Q) : Prop :=
  forall fuel : nat,
    cod_loop fuel cod_target cod_inlet [cod_inlet] 0%Z = OutOfFuel.

(** Stage 8 of the specification, in its words: monthly ozone power cost
    on the basis of the daily COD load [flowrate * cod_inlet / 1000]. *)
Definition spec_monthly_ozone_power_cost (g : Sidebar.t) (c : Rates.t) : Q :=
  Sidebar.flowrate g * Sidebar.cod_inlet g / 1000
  * Rates.ozone_power_consumption c * 30 * Sidebar.electricity_cost g.

(** The container branch of the engine as a function of the two values
    it tests: whether [flowrate <= 15], and [total_equipment_units].  It
    yields [(num_20ft_containers, num_40ft_containers)]. *)
Definition housing (low_flow : bool) (total_equipment_units : Z) : Z * Z :=
  if low_flow then (1, 0)%Z
  else if (total_equipment_units <=? 12)%Z
  then (0, 1)%Z
  else
    let num_40ft_containers := (total_equipment_units / 12)%Z in
    let remaining_units := (total_equipment_units mod 12)%Z in
    if (remaining_units >? 0)%Z then
      if (remaining_units <=? 6)%Z
      then (1, num_40ft_containers)%Z
      else (0, num_40ft_containers + 1)%Z
    else (0, num_40ft_containers)%Z.

(** The sidebar state [g] with only the flowrate changed. *)
Definition with_flowrate (g : Sidebar.t) (flowrate : Q) : Sidebar.t := {|
  Sidebar.flowrate := flowrate;
  Sidebar.cod_inlet := Sidebar.cod_inlet g;
  Sidebar.cod_target := Sidebar.cod_target g;
  Sidebar.initial_ph := Sidebar.initial_ph g;
  Sidebar.reactor_size := Sidebar.reactor_size g;
  Sidebar.php_conversion_rate := Sidebar.php_conversion_rate g;
  Sidebar.electricity_cost := Sidebar.electricity_cost g;
  Sidebar.chemical_cost_factor := Sidebar.chemical_cost_factor g
|}.

(** ** The dashboard code around the engine

    The script calls the engine once and derives the figures of its tabs
    from the returned dictionary [design_values] and the module-level
    variables.  Each block below is one such piece of script code; the
    numbers it formats are kept unformatted. *)

(** Sidebar values the cost displays rely on: the widget ranges keep the
    electricity cost and the conversion rate positive. *)
Definition valid_costs (g : Sidebar.t) : Prop :=
  0 < Sidebar.electricity_cost g /\ 0 < Sidebar.php_conversion_rate g.

(** [str(z)] on an int. *)
Definition str (z : Z) : string := NilZero.string_of_int (Z.to_int z).


(** A loop or comprehension whose body may raise: the first exception
    ends it. *)
Fixpoint mapM {A B : Type} (f : A -> outcome B) (l : list A)
    : outcome (list B) :=
  match l with
  | [] => Return []
  | a :: l' => b <- f a ;; bs <- mapM f l' ;; Return (b :: bs)
  end.

Definition Qsum (l : list Q) : Q := fold_right Qplus 0 l.

(** The dictionaries [capex_items] and [opex_items], in insertion order. *)
Definition capex_items (design_values : DesignResult) : list (string * Q) :=
  [ ("AOP Reactors"%string, aop_reactor_cost design_values);
    ("Ozone Generators"%string, ozone_generator_cost design_values);
    ("Pumping Equipment"%string, pump_cost design_values);
    ("Sand Filtration"%string, filter_cost design_values);
    ("pH Adjustment"%string, ph_adjustment_cost design_values);
    ("Container Housing"%string, container_cost design_values);
    ("Piping & Instrumentation"%string, piping_cost design_values);
    ("EPC"%string, epc_cost design_values) ].

Definition opex_items (design_values : DesignResult) : list (string * Q) :=
  [ ("Ozone Generation Power"%string, monthly_ozone_power_cost design_values);
    ("Pumping Power"%string, monthly_pumping_cost design_values);
    ("Chemicals"%string, monthly_chemical_cost design_values);
    ("Labor"%string, monthly_labor_cost design_values);
    ("Maintenance"%string, monthly_maintenance_cost design_values) ].

(** Tab 7, the loop [for item, cost in items.items()]: per item the
    label, the cost in pesos and the share [cost / total * 100]. *)
Definition item_metrics (php_conversion_rate total : Q)
    (items : list (string * Q)) : outcome (list (string * Q * Q)) :=
  mapM (fun item_cost : string * Q =>
          let item := fst item_cost in
          let cost := snd item_cost in
          let php_cost := cost * php_conversion_rate in
          share <- truediv cost total ;;
          Return (item, php_cost, share * 100))
       items.

Definition capex_metrics (g : Sidebar.t) (design_values : DesignResult)
    : outcome (list (string * Q * Q)) :=
  item_metrics (Sidebar.php_conversion_rate g) (total_capex design_values)
    (capex_items design_values).


(** Tab 1, landing page: the "Total Bid Price" metric. *)
Definition total_bid_price_php (design_values : DesignResult) : Q :=
  let total_capex_php :=
    total_capex design_values * php_conversion_rate design_values in
  let contingency_php := total_capex_php * 0.1 in
  let tax_php := total_capex_php * 1.1 * 0.12 in
  total_capex_php + tax_php + contingency_php.

(** Tab 7: the "Total Bid Price + Tax & Contingency" metric. *)
Definition bid_price_with_tax_and_contingency (g : Sidebar.t)
    (design_values : DesignResult) : Q :=
  let php_total_capex :=
    total_capex design_values * Sidebar.php_conversion_rate g in
  php_total_capex + php_total_capex * 1.1 * 0.12 + php_total_capex * 0.1.





(** Tab 1, equipment summary: the reactor train diagram, built by
    [for i in range(stages_needed)]. *)
Definition diagram_segment (stages_needed i : Z) : string :=
  if (i =? 0)%Z then "Influent → [AOP Reactor 1] → "%string
  else if (i =? stages_needed - 1)%Z
  then ("[AOP Reactor " ++ str (i + 1) ++ "] → Effluent")%string
  else ("[AOP Reactor " ++ str (i + 1) ++ "] → ")%string.

Definition reactor_train_diagram (stages_needed : Z) : string :=
  fold_left (fun (diagram : string) (i : nat) =>
               (diagram ++ diagram_segment stages_needed (Z.of_nat i))%string)
            (seq 0 (Z.to_nat stages_needed)) EmptyString.

(** Tab 1, system performance: the energy figures and the treatment
    cost. *)
Definition total_daily_energy (design_values : DesignResult) : Q :=
  ozone_requirement_kg_per_day design_values * 3
  + flowrate design_values * 0.05
  + daily_recirculation_energy design_values.

Definition monthly_energy_cost_php (design_values : DesignResult) : Q :=
  monthly_ozone_power_cost design_values * php_conversion_rate design_values
  + monthly_pumping_cost design_values * php_conversion_rate design_values.

Definition treatment_cost_per_m3 (design_values : DesignResult) : outcome Q :=
  let monthly_opex_php :=
    total_monthly_opex design_values * php_conversion_rate design_values in
  let daily_cost := monthly_opex_php / 30 in
  truediv daily_cost (flowrate design_values).

(** Tab 7: the financial analysis for the slider value
    [years_of_operation]. *)
Record Financials : Type := {
  annual_opex : Q;
  total_opex_over_lifetime : Q;
  total_cost_over_lifetime : Q;
  php_annual_opex : Q;
  php_total_opex_over_lifetime : Q;
  php_total_cost_over_lifetime : Q;
  total_volume_treated : Q;
  cost_per_cubic_meter : Q;
  php_cost_per_cubic_meter : Q;
  opex_cost_per_liter_php : Q;
  opex_cost_per_cubic_meter_usd : Q
}.

Definition financial_analysis (g : Sidebar.t) (design_values : DesignResult)
    (years_of_operation : Z) : outcome Financials :=
  let flowrate_ := Sidebar.flowrate g in
  let php_conversion_rate := Sidebar.php_conversion_rate g in
  let annual_opex := total_monthly_opex design_values * 12 in
  let total_opex_over_lifetime := annual_opex * inject_Z years_of_operation in
  let total_cost_over_lifetime :=
    total_capex design_values * 1.232 + total_opex_over_lifetime in
  let php_annual_opex := annual_opex * php_conversion_rate in
  let php_total_opex_over_lifetime :=
    total_opex_over_lifetime * php_conversion_rate in
  let php_total_cost_over_lifetime :=
    total_cost_over_lifetime * php_conversion_rate in
  let total_volume_treated :=
    flowrate design_values * 365 * inject_Z years_of_operation in
  cost_per_cubic_meter <-
    truediv total_cost_over_lifetime total_volume_treated ;;
  let php_cost_per_cubic_meter := cost_per_cubic_meter * php_conversion_rate in
  per_day_and_m3 <- truediv (php_annual_opex / 365) flowrate_ ;;
  let opex_cost_per_liter_php := per_day_and_m3 / 1000 in
  opex_cost_per_cubic_meter_usd <-
    truediv per_day_and_m3 php_conversion_rate ;;
  Return {|
    annual_opex := annual_opex;
    total_opex_over_lifetime := total_opex_over_lifetime;
    total_cost_over_lifetime := total_cost_over_lifetime;
    php_annual_opex := php_annual_opex;
    php_total_opex_over_lifetime := php_total_opex_over_lifetime;
    php_total_cost_over_lifetime := php_total_cost_over_lifetime;
    total_volume_treated := total_volume_treated;
    cost_per_cubic_meter := cost_per_cubic_meter;
    php_cost_per_cubic_meter := php_cost_per_cubic_meter;
    opex_cost_per_liter_php := opex_cost_per_liter_php;
    opex_cost_per_cubic_meter_usd := opex_cost_per_cubic_meter_usd
  |}.

(** Tab 7: the four columns of [detailed_cost_data], from which the cost
    analysis table is built. *)
Record CostTable : Type := {
  Component : list string;
  Cost_PHP : list Q;
  Category : list string;
  Notes : list string
}.

Definition detailed_cost_data (g : Sidebar.t) (design_values : DesignResult)
    (years_of_operation : Z) (f : Financials) : CostTable :=
  let php_conversion_rate := Sidebar.php_conversion_rate g in
  let years := str years_of_operation in
  {|
    Component :=
      map fst (capex_items design_values) ++ ["Total CAPEX"%string]
      ++ map fst (opex_items design_values)
      ++ [ "Total Monthly OPEX"%string; "Annual OPEX"%string;
           ("Lifetime OPEX (" ++ years ++ " years)")%string;
           ("Total Lifetime Cost (" ++ years ++ " years)")%string;
           "Cost Per Cubic Meter"%string ];
    Cost_PHP :=
      map (fun value : Q => value * php_conversion_rate)
          (map snd (capex_items design_values))
      ++ [total_capex design_values * php_conversion_rate]
      ++ map (fun value : Q => value * php_conversion_rate)
             (map snd (opex_items design_values))
      ++ [ total_monthly_opex design_values * php_conversion_rate;
           annual_opex f * php_conversion_rate;
           total_opex_over_lifetime f * php_conversion_rate;
           total_cost_over_lifetime f * php_conversion_rate;
           cost_per_cubic_meter f * php_conversion_rate ];
    Category :=
      repeat "CAPEX"%string (length (capex_items design_values))
      ++ ["CAPEX"%string]
      ++ repeat "Monthly OPEX"%string (length (opex_items design_values))
      ++ [ "Monthly OPEX"%string; "Annual OPEX"%string;
           "Lifetime OPEX"%string; "Total Cost"%string;
           "Unit Cost"%string ];
    Notes :=
      [ "AOP reactor cost"%string; "Ozone generator cost"%string;
        "Pumping equipment cost"%string; "Sand filtration system"%string;
        "pH adjustment system"%string; "Container Housing"%string;
        "Piping and instrumentation"%string;
        "Engineering, procurement, and construction"%string ]
      ++ ["Total capital expenditure"%string]
      ++ [ "Power for ozone generation"%string; "Power for pumping"%string;
           "Chemical costs for pH adjustment"%string; "Staff costs"%string;
           "Parts and consumables"%string ]
      ++ [ "Total monthly operational cost"%string;
           "Annual operational cost"%string;
           ("Operational cost over " ++ years ++ " years")%string;
           ("Total cost over " ++ years ++ " years")%string;
           "Cost per cubic meter of water treated"%string ]
  |}.

(** ** The staging loop in binary64

    The COD values are Python floats and the loop multiplies them by the
    float constant 0.40 with rounding to nearest, ties to even.  Here the
    loop runs on binary64 values as the IEEE 754 specification of the
    standard library gives them, with its multiplication and comparison,
    so each product is rounded as in the source.  The rest of the engine
    is as above. *)

Definition b64_mul : spec_float -> spec_float -> spec_float := SFmul 53 1024.

Definition b64_div : spec_float -> spec_float -> spec_float := SFdiv 53 1024.

(** [x > y] on floats; false when either is NaN. *)
Definition b64_gt (x y : spec_float) : bool := SFltb y x.

(** The float of an int, and the float literal [n / d] written in
    decimal: the double nearest to the quotient. *)
Definition b64_of_Z (z : Z) : spec_float := binary_normalize 53 1024 z 0 false.

Definition b64_decimal (n d : Z) : spec_float :=
  b64_div (b64_of_Z n) (b64_of_Z d).

(** The float literal [0.40]: 7205759403792794 * 2^-54. *)
Definition b64_0_40 : spec_float := S754_finite false 7205759403792794 (-54).

(** The exact value of a finite float (infinities and NaN, which have
    none, are sent to 0). *)
Definition SF2Q (x : spec_float) : Q :=
  match x with
  | S754_finite s m e =>
      (if s then - inject_Z (Zpos m) else inject_Z (Zpos m)) * 2 ^ e
  | _ => 0
  end.

(** A positive finite binary64 value. *)
Definition positive_double (x : spec_float) : bool :=
  match x with
  | S754_finite false m e => bounded 53 1024 m e
  | _ => false
  end.

(** The staging loop on binary64 values. *)
Fixpoint cod_loop64 (fuel : nat) (cod_target current_cod : spec_float)
    (cod_values : list spec_float) (stages_needed : Z)
    : outcome (spec_float * list spec_float * Z) :=
  match fuel with
  | O => OutOfFuel
  | S fuel' =>
      if b64_gt current_cod cod_target then
        let current_cod := b64_mul current_cod b64_0_40 in
        cod_loop64 fuel' cod_target current_cod
          (cod_values ++ [current_cod]) (stages_needed + 1)%Z
      else Return (current_cod, cod_values, stages_needed)
  end.

(** The sidebar with the two COD values as binary64 floats. *)
Module Sidebar64.
Record t : Type := {
  flowrate : Q;
  cod_inlet : spec_float;
  cod_target : spec_float;
  initial_ph : Q;
  reactor_size : Q;
  php_conversion_rate : Q;
  electricity_cost : Q;
  chemical_cost_factor : Q
}.
End Sidebar64.

(** The engine with its staging loop in binary64. *)
Definition calculate_design_values64 (fuel : nat) (g : Sidebar64.t)
    (c : Rates.t)
    : outcome DesignResult :=
  let flowrate := Sidebar64.flowrate g in
  let cod_inlet := Sidebar64.cod_inlet g in
  let cod_target := Sidebar64.cod_target g in
  let initial_ph := Sidebar64.initial_ph g in
  let reactor_size := Sidebar64.reactor_size g in
  let php_conversion_rate := Sidebar64.php_conversion_rate g in
  let electricity_cost := Sidebar64.electricity_cost g in
  let chemical_cost_factor := Sidebar64.chemical_cost_factor g in
  let aop_reactor_unit_cost := Rates.aop_reactor_unit_cost c in
  let pump_unit_cost := Rates.pump_unit_cost c in
  let filter_unit_cost := Rates.filter_unit_cost c in
  let ph_adjustment_unit_cost := Rates.ph_adjustment_unit_cost c in
  let ozone_generator_unit_cost := Rates.ozone_generator_unit_cost c in
  let operator_monthly_salary := Rates.operator_monthly_salary c in
  let ozone_power_consumption := Rates.ozone_power_consumption c in
  let pump_power_consumption := Rates.pump_power_consumption c in
  let chemicals_base_cost := Rates.chemicals_base_cost c in
  let maintenance_factor := Rates.maintenance_factor c in
  let piping_factor := Rates.piping_factor c in
  let epc_factor := Rates.epc_factor c in
  let container_20ft_cost := Rates.container_20ft_cost c in
  let container_40ft_cost := Rates.container_40ft_cost c in
  (* Basic calculations *)
  let cod_load_kg_per_day := flowrate * SF2Q cod_inlet / 1000 in
  let ozone_requirement_kg_per_day := 0.25 * cod_load_kg_per_day in
  (* AOP reactor calculations *)
  let reactor_volume_per_day := flowrate in
  let reactor_volume_per_hour := reactor_volume_per_day / 24 in
  let hourly_processing_capacity_per_reactor := reactor_size / 2 in
  ratio <- truediv reactor_volume_per_hour
             hourly_processing_capacity_per_reactor ;;
  let num_parallel_reactors_needed := np_ceil ratio in
  (* Ozone generators: figures computed but not used further *)
  let ozone_requirement_g_per_hour :=
    ozone_requirement_kg_per_day * 1000 / 24 in
  let ozone_capacity_per_generator := 200%Z in
  let ozone_capacity_per_reactor := (2 * ozone_capacity_per_generator)%Z in
  (* Stage-wise COD reduction *)
  let current_cod := cod_inlet in
  let stages_needed := 0%Z in
  let cod_values := [current_cod] in
  st <- cod_loop64 fuel cod_target current_cod cod_values stages_needed ;;
  let cod_values := snd (fst st) in
  let stages_needed := snd st in
  (* min 2 reactors, max 4 reactors per train *)
  let stages_needed := Z.max 2 (Z.min 4 stages_needed) in
  let num_reactor_trains := int (np_ceil num_parallel_reactors_needed) in
  let total_reactors := (num_reactor_trains * stages_needed)%Z in
  (* Ozone generators *)
  let num_ozone_generators := (total_reactors * 2)%Z in
  let ozone_generator_cost :=
    inject_Z num_ozone_generators * ozone_generator_unit_cost in
  (* Pumps *)
  let pump_flow_rate_per_train := reactor_size / 0.25 in
  let total_pump_flow_rate :=
    pump_flow_rate_per_train * inject_Z num_reactor_trains in
  let recirculation_flow_rate :=
    inject_Z total_reactors * reactor_size * 5 / 2 in
  let recirculation_pumps_required := 2%Z in
  (* CAPEX *)
  let aop_reactor_cost := aop_reactor_unit_cost * inject_Z total_reactors in
  let total_influent_effluent_pumps := (num_reactor_trains * 4)%Z in
  let total_pumps :=
    (total_influent_effluent_pumps + recirculation_pumps_required)%Z in
  let pump_cost := pump_unit_cost * inject_Z total_pumps in
  (* Sand filtration *)
  let filtration_loading_rate := 10 in
  let required_filter_area := total_pump_flow_rate / filtration_loading_rate in
  let filter_units := Z.max 2 (int (np_ceil (required_filter_area / 5))) in
  let filter_cost := filter_unit_cost * required_filter_area in
  (* pH adjustment *)
  let ph_adjustment_cost := ph_adjustment_unit_cost in
  (* Container housing *)
  let total_equipment_units := (total_reactors + filter_units)%Z in
  let container_20ft_capacity := 6%Z in
  let container_40ft_capacity := 12%Z in
  let containers :=
    if Qle_bool flowrate 15 then (1, 0)%Z
    else if (total_equipment_units <=? container_40ft_capacity)%Z
    then (0, 1)%Z
    else
      let num_40ft_containers :=
        (total_equipment_units / container_40ft_capacity)%Z in
      let remaining_units :=
        (total_equipment_units mod container_40ft_capacity)%Z in
      if (remaining_units >? 0)%Z then
        if (remaining_units <=? container_20ft_capacity)%Z
        then (1, num_40ft_containers)%Z
        else (0, num_40ft_containers + 1)%Z
      else (0, num_40ft_containers)%Z in
  let num_20ft_containers := fst containers in
  let num_40ft_containers := snd containers in
  let container_cost :=
    inject_Z num_20ft_containers * container_20ft_cost
    + inject_Z num_40ft_containers * container_40ft_cost in
  (* Piping, instrumentation and controls *)
  let piping_cost := (aop_reactor_cost + pump_cost) * piping_factor in
  (* Engineering, procurement and construction *)
  let direct_costs :=
    aop_reactor_cost + ozone_generator_cost + pump_cost + filter_cost
    + ph_adjustment_cost + piping_cost + container_cost in
  let epc_cost := direct_costs * epc_factor in
  let total_capex := direct_costs + epc_cost in
  (* OPEX, monthly *)
  let daily_ozone_energy :=
    ozone_requirement_kg_per_day * ozone_power_consumption in
  let monthly_ozone_energy := daily_ozone_energy * 30 in
  let monthly_ozone_power_cost := monthly_ozone_energy * electricity_cost in
  let daily_pumping_energy := flowrate * pump_power_consumption in
  let daily_recirculation_energy :=
    recirculation_flow_rate * 24 * pump_power_consumption in
  let total_daily_pumping_energy :=
    daily_pumping_energy + daily_recirculation_energy in
  let monthly_pumping_energy := total_daily_pumping_energy * 30 in
  let monthly_pumping_cost := monthly_pumping_energy * electricity_cost in
  let monthly_chemical_cost :=
    (flowrate * 30) * chemicals_base_cost * chemical_cost_factor in
  let operators_required :=
    Z.max 1 (int (np_ceil (inject_Z total_reactors / 8))) in
  let monthly_labor_cost :=
    inject_Z operators_required * operator_monthly_salary in
  let monthly_maintenance_cost := total_capex * maintenance_factor / 12 in
  let total_monthly_opex :=
    monthly_ozone_power_cost + monthly_pumping_cost + monthly_chemical_cost
    + monthly_labor_cost + monthly_maintenance_cost in
  Return {|
    flowrate := flowrate;
    cod_inlet := SF2Q cod_inlet;
    cod_target := SF2Q cod_target;
    initial_ph := initial_ph;
    reactor_size := reactor_size;
    cod_load_kg_per_day := cod_load_kg_per_day;
    ozone_requirement_kg_per_day := ozone_requirement_kg_per_day;
    num_parallel_reactors_needed := num_parallel_reactors_needed;
    stages_needed := stages_needed;
    num_reactor_trains := num_reactor_trains;
    total_reactors := total_reactors;
    num_ozone_generators := num_ozone_generators;
    ozone_generator_cost := ozone_generator_cost;
    cod_reduction_stages := map SF2Q cod_values;
    pump_flow_rate_per_train := pump_flow_rate_per_train;
    total_pump_flow_rate := total_pump_flow_rate;
    recirculation_flow_rate := recirculation_flow_rate;
    recirculation_pumps_required := recirculation_pumps_required;
    total_influent_effluent_pumps := total_influent_effluent_pumps;
    total_pumps := total_pumps;
    aop_reactor_cost := aop_reactor_cost;
    pump_cost := pump_cost;
    filter_cost := filter_cost;
    filter_units := filter_units;
    ph_adjustment_cost := ph_adjustment_cost;
    piping_cost := piping_cost;
    epc_cost := epc_cost;
    total_capex := total_capex;
    monthly_ozone_power_cost := monthly_ozone_power_cost;
    daily_recirculation_energy := daily_recirculation_energy;
    monthly_pumping_cost := monthly_pumping_cost;
    monthly_chemical_cost := monthly_chemical_cost;
    monthly_labor_cost := monthly_labor_cost;
    monthly_maintenance_cost := monthly_maintenance_cost;
    total_monthly_opex := total_monthly_opex;
    electricity_cost := electricity_cost;
    chemical_cost_factor := chemical_cost_factor;
    operators_required := operators_required;
    php_conversion_rate := php_conversion_rate;
    num_20ft_containers := num_20ft_containers;
    num_40ft_containers := num_40ft_containers;
    container_cost := container_cost;
    total_equipment_units := total_equipment_units
  |}.

(** The exact values of a sidebar with binary64 COD values. *)
Definition exact (g : Sidebar64.t) : Sidebar.t := {|
  Sidebar.flowrate := Sidebar64.flowrate g;
  Sidebar.cod_inlet := SF2Q (Sidebar64.cod_inlet g);
  Sidebar.cod_target := SF2Q (Sidebar64.cod_target g);
  Sidebar.initial_ph := Sidebar64.initial_ph g;
  Sidebar.reactor_size := Sidebar64.reactor_size g;
  Sidebar.php_conversion_rate := Sidebar64.php_conversion_rate g;
  Sidebar.electricity_cost := Sidebar64.electricity_cost g;
  Sidebar.chemical_cost_factor := Sidebar64.chemical_cost_factor g
|}.

(** A sidebar state with binary64 COD values and the widget defaults for
    pH, conversion rate, electricity cost and chemical cost factor. *)
Definition sidebar64 (flowrate : Q) (cod_inlet cod_target : spec_float)
    (reactor_size : Q) : Sidebar64.t := {|
  Sidebar64.flowrate := flowrate;
  Sidebar64.cod_inlet := cod_inlet;
  Sidebar64.cod_target := cod_target;
  Sidebar64.initial_ph := 7;
  Sidebar64.reactor_size := reactor_size;
  Sidebar64.php_conversion_rate := 58;
  Sidebar64.electricity_cost := 0.19;
  Sidebar64.chemical_cost_factor := 1
|}.

(** The widget defaults, and the inputs [cod_inlet = 160.0],
    [cod_target = 10.24] on which rounding adds a stage. *)
Definition default_sidebar64 : Sidebar64.t :=
  sidebar64 10 (b64_of_Z 1000) (b64_of_Z 75) 1.5.

Definition rounding_sidebar64 : Sidebar64.t :=
  sidebar64 10 (b64_of_Z 160) (b64_decimal 1024 100) 1.5.

(** The validated process inputs, the COD values being positive finite
    doubles. *)
Definition valid_process64 (g : Sidebar64.t) : Prop :=
  valid_process (exact g) /\
  positive_double (Sidebar64.cod_inlet g) = true /\
  positive_double (Sidebar64.cod_target g) = true.

Definition returns64 (g : Sidebar64.t) (c : Rates.t) (r : DesignResult)
    : Prop :=
  exists n : nat, forall fuel : nat, (n < fuel)%nat ->
    calculate_design_values64 fuel g c = Return r.

(** The value after [i] successive binary64 multiplications of
    [cod_inlet] by 0.40. *)
Definition rounded_stage (cod_inlet : spec_float) (i : nat) : spec_float :=
  Nat.iter i (fun x : spec_float => b64_mul x b64_0_40) cod_inlet.

(** [n] is the number of stages the loop runs: the least number of
    successive binary64 multiplications of [cod_inlet] by 0.40 after
    which the value is no longer above [cod_target]. *)
Definition natural_stage_count64 (cod_inlet cod_target : spec_float)
    (n : nat) : Prop :=
  b64_gt (rounded_stage cod_inlet n) cod_target = false /\
  forall m : nat, (m < n)%nat ->
    b64_gt (rounded_stage cod_inlet m) cod_target = true.

(** The sequence of rounded products, inlet first. *)
Definition rounded_stages (cod_inlet : spec_float) (n : nat)
    : list spec_float :=
  map (rounded_stage cod_inlet) (seq 0 (S n)).

(** Zero or a positive finite value within the binary64 ranges. *)
Definition in_range (x : spec_float) : Prop :=
  x = S754_zero false \/
  exists (m : positive) (e : Z),
    x = S754_finite false m e /\
    (Zpos m < 2 ^ 53)%Z /\ (-1074 <= e <= 971)%Z.

(** A rank that the multiplication by 0.40 lowers. *)
Definition rank (x : spec_float) : Z :=
  match x with
  | S754_finite false m e => ((e + 1074) * 2 ^ 53 + Zpos m)%Z
  | _ => 0%Z
  end.

(** ** Primitives *)

Lemma gt_true_iff (x y : Q) : gt x y = true <-> y < x.
Proof.
  unfold gt. rewrite negb_true_iff. split.
  - intros H. apply Qnot_le_lt. intros Hle.
    apply Qle_bool_iff in Hle. congruence.
  - intros H. destruct (Qle_bool x y) eqn:E; [|reflexivity].
    apply Qle_bool_iff in E. lra.
Qed.

Lemma gt_false_iff (x y : Q) : gt x y = false <-> x <= y.
Proof.
  unfold gt. rewrite negb_false_iff. apply Qle_bool_iff.
Qed.

Lemma int_inject_Z (z : Z) : int (inject_Z z) = z.
Proof. unfold int. cbn [inject_Z Qnum Qden]. apply Z.quot_1_r. Qed.

Lemma int_np_ceil (x : Q) : int (np_ceil x) = Qceiling x.
Proof. apply int_inject_Z. Qed.

Lemma np_ceil_idem (x : Q) : np_ceil (np_ceil x) = np_ceil x.
Proof. unfold np_ceil. now rewrite Qceiling_Z. Qed.

Lemma truediv_nonzero (x y : Q) : ~ y == 0 -> truediv x y = Return (x / y).
Proof.
  intros H. unfold truediv. destruct (Qeq_bool y 0) eqn:E; [|reflexivity].
  apply Qeq_bool_eq in E. contradiction.
Qed.

Lemma Qceiling_pos (x : Q) : 0 < x -> (1 <= Qceiling x)%Z.
Proof.
  intros H. pose proof (Qle_ceiling x) as Hc.
  assert (Hlt : 0 < inject_Z (Qceiling x)) by lra.
  rewrite <- (Zlt_Qlt 0) in Hlt. lia.
Qed.

Lemma Qceiling_unit (x : Q) : 0 < x -> x <= 1 -> Qceiling x = 1%Z.
Proof.
  intros H0 H1. pose proof (Qceiling_pos x H0) as Hlo.
  pose proof (Qceiling_resp_le x 1 H1) as Hhi.
  change (Qceiling 1) with 1%Z in Hhi. lia.
Qed.

(** ** Powers of the per-stage factor *)

Lemma decay_succ (n : nat) : 0.40 ^ Z.of_nat (S n) == 0.40 ^ Z.of_nat n * 0.40.
Proof.
  rewrite Nat2Z.inj_succ. unfold Z.succ.
  rewrite Qpower_plus by (intros H; discriminate H).
  reflexivity.
Qed.

Lemma decay_pos (n : nat) : 0 < 0.40 ^ Z.of_nat n.
Proof.
  induction n as [|n IH].
  - reflexivity.
  - rewrite decay_succ. nra.
Qed.

Lemma natural_stage_count_step (cur target : Q) (n : nat) :
  natural_stage_count cur target (S n) ->
  target < cur /\ natural_stage_count (cur * 0.40) target n.
Proof.
  intros [Hle Hlt]. split.
  - specialize (Hlt 0%nat (Nat.lt_0_succ n)).
    change (0.40 ^ Z.of_nat 0) with 1 in Hlt. lra.
  - split.
    + rewrite decay_succ in Hle. lra.
    + intros m Hm. specialize (Hlt (S m) (proj1 (Nat.succ_lt_mono m n) Hm)).
      rewrite decay_succ in Hlt. lra.
Qed.

(** ** The staging loop *)

Lemma Forall2_Qeq_shift (f h : nat -> Q) (l : list Q) (idx : list nat) :
  (forall i, h i == f (S i)) ->
  Forall2 Qeq l (map h idx) ->
  Forall2 Qeq l (map f (map S idx)).
Proof.
  intros Hfh. revert l.
  induction idx as [|i idx IH]; intros l H; inversion H; subst; cbn [map].
  - constructor.
  - constructor; [rewrite <- Hfh; assumption | apply IH; assumption].
Qed.

Lemma Forall2_Qeq_trans (l a b : list Q) :
  Forall2 Qeq l a -> Forall2 Qeq a b -> Forall2 Qeq l b.
Proof.
  intros H. revert b.
  induction H as [|x y l a Hxy _ IH]; intros b Hab; inversion Hab; subst;
    constructor; [now transitivity y | now apply IH].
Qed.

(** With fuel beyond the natural stage count the loop exits after exactly
    that many iterations, having appended one geometric value per
    iteration; the state it exits in does not depend on the fuel. *)
Lemma cod_loop_natural (n : nat) :
  forall (target cur : Q) (vals : list Q) (k : Z),
  natural_stage_count cur target n ->
  exists (cur' : Q) (vals' : list Q),
    (forall fuel : nat, (n < fuel)%nat ->
       cod_loop fuel target cur vals k
         = Return (cur', vals ++ vals', (k + Z.of_nat n)%Z)) /\
    Forall2 Qeq vals' (map (fun i : nat => cur * 0.40 ^ Z.of_nat i) (seq 1 n)).
Proof.
  induction n as [|n IH]; intros target cur vals k Hn.
  - destruct Hn as [Hle _]. change (0.40 ^ Z.of_nat 0) with 1 in Hle.
    assert (Hgt : gt cur target = false) by (apply gt_false_iff; lra).
    exists cur, []. split; [|constructor].
    intros [|fuel] Hfuel; [lia|]. cbn [cod_loop].
    rewrite Hgt, app_nil_r, Z.add_0_r. reflexivity.
  - apply natural_stage_count_step in Hn. destruct Hn as [Hlt Hn].
    assert (Hgt : gt cur target = true) by (apply gt_true_iff; exact Hlt).
    destruct (IH target (cur * 0.40) (vals ++ [cur * 0.40]) (k + 1)%Z Hn)
      as (cur' & vals' & Hrun & Hvals).
    exists cur', ((cur * 0.40) :: vals'). split.
    + intros [|fuel] Hfuel; [lia|]. cbn [cod_loop]. rewrite Hgt. cbv zeta.
      rewrite Hrun by lia. rewrite <- app_assoc. cbn [app].
      replace (k + Z.of_nat (S n))%Z with (k + 1 + Z.of_nat n)%Z by lia.
      reflexivity.
    + cbn [seq map]. constructor.
      * change (0.40 ^ Z.of_nat 1) with 0.40. reflexivity.
      * rewrite <- seq_shift.
        apply Forall2_Qeq_shift
          with (h := fun i : nat => cur * 0.40 * 0.40 ^ Z.of_nat i);
          [|exact Hvals].
        intros i. rewrite decay_succ. ring.
Qed.

(** When the loop condition fails at entry the loop body never runs. *)
Lemma cod_loop_skip (fuel : nat) (target cur : Q) (vals : list Q) (k : Z) :
  cur <= target ->
  cod_loop (S fuel) target cur vals k = Return (cur, vals, k).
Proof.
  intros H. cbn [cod_loop].
  apply gt_false_iff in H. now rewrite H.
Qed.

(** ** Existence of the natural stage count *)

Lemma growth_linear (n : nat) : inject_Z (Z.of_nat n) * 0.40 ^ Z.of_nat n <= 1.
Proof.
  induction n as [|n IH].
  - cbn. discriminate.
  - rewrite decay_succ, Nat2Z.inj_succ. unfold Z.succ. rewrite inject_Z_plus.
    pose proof (decay_pos n) as Hp.
    assert (H1 : 0.40 ^ Z.of_nat n <= 1).
    { clear IH. induction n as [|n IHn]; [discriminate|].
      rewrite decay_succ. pose proof (decay_pos n). nra. }
    change (inject_Z 1) with 1.
    set (p := 0.40 ^ Z.of_nat n) in *. set (x := inject_Z (Z.of_nat n)) in *.
    nra.
Qed.

Lemma decay_reaches (inlet target : Q) :
  0 < target -> exists N : nat, inlet * 0.40 ^ Z.of_nat N <= target.
Proof.
  intros Ht.
  exists (Z.to_nat (Qceiling (inlet / target)) + 1)%nat.
  set (N := (Z.to_nat (Qceiling (inlet / target)) + 1)%nat).
  pose proof (growth_linear N) as Hg. pose proof (decay_pos N) as Hp.
  assert (HN : inlet / target <= inject_Z (Z.of_nat N)).
  { eapply Qle_trans; [apply Qle_ceiling|].
    rewrite <- Zle_Qle. subst N. lia. }
  assert (Hq : inlet == inlet / target * target) by (field; lra).
  set (p := 0.40 ^ Z.of_nat N) in *. set (x := inject_Z (Z.of_nat N)) in *.
  set (q := inlet / target) in *.
  assert (H1 : q * p <= 1) by nra.
  assert (H2 : q * p * target <= target) by nra.
  assert (H3 : inlet * p == q * p * target) by (rewrite Hq; ring).
  lra.
Qed.

Lemma least_stage (inlet target : Q) (N : nat) :
  inlet * 0.40 ^ Z.of_nat N <= target ->
  exists n : nat, (n <= N)%nat /\ natural_stage_count inlet target n.
Proof.
  induction N as [N IH] using lt_wf_ind. intros HN.
  assert (Hdec : (exists m, (m < N)%nat /\ inlet * 0.40 ^ Z.of_nat m <= target)
                 \/ (forall m, (m < N)%nat -> target < inlet * 0.40 ^ Z.of_nat m)).
  { clear IH HN. induction N as [|N IHN].
    - right. intros m Hm. lia.
    - destruct IHN as [(m & Hm & Hle) | Hall].
      + left. exists m. split; [lia | exact Hle].
      + destruct (Qlt_le_dec target (inlet * 0.40 ^ Z.of_nat N)) as [Hlt | Hle].
        * right. intros m Hm.
          destruct (Nat.eq_dec m N) as [-> | Hne]; [exact Hlt | apply Hall; lia].
        * left. exists N. split; [lia | exact Hle]. }
  destruct Hdec as [(m & Hm & Hle) | Hall].
  - destruct (IH m Hm Hle) as (n & Hn & Hnat).
    exists n. split; [lia | exact Hnat].
  - exists N. split; [lia | split; assumption].
Qed.

Lemma natural_stage_count_exists (inlet target : Q) :
  0 < target -> exists n : nat, natural_stage_count inlet target n.
Proof.
  intros Ht. destruct (decay_reaches inlet target Ht) as [N HN].
  destruct (least_stage inlet target N HN) as (n & _ & Hn).
  exists n. exact Hn.
Qed.

Lemma natural_stage_count_unique (inlet target : Q) (n m : nat) :
  natural_stage_count inlet target n -> natural_stage_count inlet target m ->
  n = m.
Proof.
  intros [Hn1 Hn2] [Hm1 Hm2].
  destruct (Nat.lt_trichotomy n m) as [H | [H | H]]; [|exact H|].
  - specialize (Hm2 n H). lra.
  - specialize (Hn2 m H). lra.
Qed.

(** ** Running the engine *)

Lemma returns_deterministic (g : Sidebar.t) (c : Rates.t) (r r' : DesignResult) :
  returns g c r -> returns g c r' -> r = r'.
Proof.
  intros [n Hn] [m Hm].
  specialize (Hn (S (Nat.max n m))). specialize (Hm (S (Nat.max n m))).
  rewrite Hn in Hm by lia.
  assert (Hlt : (m < S (Nat.max n m))%nat) by lia.
  specialize (Hm Hlt). congruence.
Qed.

Lemma capacity_nonzero (g : Sidebar.t) :
  valid_process g -> ~ Sidebar.reactor_size g / 2 == 0.
Proof.
  intros (_ & _ & _ & _ & _ & [H | H]) H0; rewrite H in H0; discriminate H0.
Qed.

(** The state in which the staging loop of the engine exits. *)
Lemma staging_exit (g : Sidebar.t) (n : nat) :
  natural_stage_count (Sidebar.cod_inlet g) (Sidebar.cod_target g) n ->
  exists (cur : Q) (vals : list Q),
    (forall fuel : nat, (n < fuel)%nat ->
       cod_loop fuel (Sidebar.cod_target g) (Sidebar.cod_inlet g)
         [Sidebar.cod_inlet g] 0%Z = Return (cur, vals, Z.of_nat n)) /\
    Forall2 Qeq vals (geometric_stages (Sidebar.cod_inlet g) n).
Proof.
  intros Hn.
  destruct (cod_loop_natural n _ _ [Sidebar.cod_inlet g] 0%Z Hn)
    as (cur & vals & Hrun & Hvals).
  exists cur, (Sidebar.cod_inlet g :: vals). split.
  - exact Hrun.
  - unfold geometric_stages. cbn [seq map]. constructor; [|exact Hvals].
    change (0.40 ^ Z.of_nat 0) with 1. ring.
Qed.

(** Proof step shared by the theorems below: given that the divisor is
    not zero ([Hrs]) and the exit state of the loop ([Hrun]), name the
    returned dictionary and reduce its field projections. *)
Ltac engine_returns n Hrs Hrun :=
  exists n; intros ?fuel ?Hfuel;
  unfold calculate_design_values; cbv zeta;
  rewrite (truediv_nonzero _ _ Hrs); cbn [bind];
  rewrite (Hrun _ ltac:(eassumption)); cbn [bind fst snd];
  reflexivity.

Ltac project_fields :=
  cbn [flowrate cod_inlet cod_target initial_ph reactor_size
       cod_load_kg_per_day ozone_requirement_kg_per_day
       num_parallel_reactors_needed stages_needed num_reactor_trains
       total_reactors num_ozone_generators ozone_generator_cost
       cod_reduction_stages pump_flow_rate_per_train total_pump_flow_rate
       recirculation_flow_rate recirculation_pumps_required
       total_influent_effluent_pumps total_pumps aop_reactor_cost pump_cost
       filter_cost filter_units ph_adjustment_cost piping_cost epc_cost
       total_capex monthly_ozone_power_cost daily_recirculation_energy
       monthly_pumping_cost monthly_chemical_cost monthly_labor_cost
       monthly_maintenance_cost total_monthly_opex electricity_cost
       chemical_cost_factor operators_required php_conversion_rate
       num_20ft_containers num_40ft_containers container_cost
       total_equipment_units].

Ltac run_engine n Hrs Hrun :=
  eexists; split; [engine_returns n Hrs Hrun | project_fields].

Ltac solve_valid :=
  unfold valid_process, valid_rates; cbn;
  repeat split; try reflexivity; try discriminate;
  try (left; reflexivity); try (right; reflexivity).

Ltac solve_natural :=
  split;
  [ vm_compute; discriminate
  | let m := fresh "m" in let Hm := fresh "Hm" in
    intros m Hm;
    repeat (destruct m as [|m]; [vm_compute; reflexivity|]); lia ].

(** ** Rounding of the binary64 product *)

(** The product of a positive finite double by the constant 0.40 is
    zero or again a positive finite double, and lies strictly below it in
    the order of (exponent, mantissa).  The lemmas leading there describe
    the right shift and the rounding to nearest, ties to even, of
    [SpecFloat] on non-negative mantissas. *)

Section Binary64.
Local Open Scope Z_scope.

(** The bit length of a positive number. *)
Lemma digits2_pos_spec (p : positive) :
  2 ^ (Zpos (digits2_pos p) - 1) <= Zpos p < 2 ^ Zpos (digits2_pos p).
Proof.
  induction p as [p IH | p IH |]; cbn [digits2_pos].
  - rewrite Pos2Z.inj_succ.
    replace (Z.succ (Zpos (digits2_pos p)) - 1)
      with (Z.succ (Zpos (digits2_pos p) - 1)) by lia.
    rewrite !Z.pow_succ_r by lia. lia.
  - rewrite Pos2Z.inj_succ.
    replace (Z.succ (Zpos (digits2_pos p)) - 1)
      with (Z.succ (Zpos (digits2_pos p) - 1)) by lia.
    rewrite !Z.pow_succ_r by lia. lia.
  - cbn. lia.
Qed.

Lemma iter_pos_nat {A : Type} (f : A -> A) (p : positive) :
  forall x : A, iter_pos f p x = Nat.iter (Pos.to_nat p) f x.
Proof.
  induction p as [p IH | p IH |]; intros x; cbn [iter_pos].
  - rewrite !IH, Pos2Nat.inj_xI.
    replace (S (2 * Pos.to_nat p))
      with (Pos.to_nat p + (Pos.to_nat p + 1))%nat by lia.
    rewrite !Nat.iter_add. reflexivity.
  - rewrite !IH, Pos2Nat.inj_xO.
    replace (2 * Pos.to_nat p)%nat
      with (Pos.to_nat p + Pos.to_nat p)%nat by lia.
    rewrite Nat.iter_add. reflexivity.
  - reflexivity.
Qed.

(** Shifting right by one bit halves the mantissa. *)
Lemma shr_1_m (r : shr_record) :
  0 <= shr_m r -> shr_m (shr_1 r) = shr_m r / 2.
Proof.
  destruct r as [m rb sb]. cbn [shr_m shr_1]. intros Hm.
  destruct m as [|[p|p|]|p]; cbn [shr_m].
  - reflexivity.
  - apply Z.div_unique with (r := 1); lia.
  - apply Z.div_unique with (r := 0); lia.
  - reflexivity.
  - lia.
Qed.

Lemma shr_iter_m (k : nat) (r : shr_record) :
  0 <= shr_m r ->
  shr_m (Nat.iter k shr_1 r) = shr_m r / 2 ^ Z.of_nat k.
Proof.
  intros Hm. induction k as [|k IH].
  - cbn. now rewrite Z.div_1_r.
  - rewrite Nat.iter_succ. rewrite shr_1_m.
    + rewrite IH, Nat2Z.inj_succ, Z.pow_succ_r by lia.
      rewrite Z.div_div by lia. f_equal. lia.
    + rewrite IH. apply Z.div_pos; lia.
Qed.

Lemma shr_m_spec (m : Z) (e n : Z) :
  0 <= m -> 0 <= n ->
  shr_m (fst (shr (Build_shr_record m false false) e n)) = m / 2 ^ n /\
  snd (shr (Build_shr_record m false false) e n) = e + n.
Proof.
  intros Hm Hn. unfold shr. destruct n as [|p|p]; cbn [fst snd shr_m].
  - rewrite Z.div_1_r. split; lia.
  - rewrite iter_pos_nat, shr_iter_m by exact Hm. cbn [shr_m].
    rewrite positive_nat_Z. split; reflexivity.
  - lia.
Qed.

(** Rounding keeps the truncated mantissa or adds one to it. *)
Lemma round_nearest_even_bounds (m : Z) (l : location) :
  m <= round_nearest_even m l <= m + 1.
Proof.
  destruct l as [|[| |]]; cbn [round_nearest_even]; try lia.
  destruct (Z.even m); lia.
Qed.

(** Shifting right by [n] bits divides the mantissa by [2^n] and adds
    [n] to the exponent; a negative [n] shifts by nothing. *)
Lemma shr_spec (m e n : Z) :
  0 <= m ->
  shr_m (fst (shr (Build_shr_record m false false) e n))
    = m / 2 ^ Z.max n 0 /\
  snd (shr (Build_shr_record m false false) e n) = e + Z.max n 0.
Proof.
  intros Hm. destruct (Z.le_gt_cases 0 n) as [Hn | Hn].
  - rewrite Z.max_l by lia. now apply shr_m_spec.
  - rewrite Z.max_r by lia. destruct n as [|p|p]; try lia.
    cbn [shr fst snd shr_m]. rewrite Z.div_1_r. split; lia.
Qed.

Lemma fexp_b64 (x : Z) : fexp 53 1024 x = Z.max (x - 53) (-1074).
Proof. reflexivity. Qed.

Lemma pow2_lt_inv (b c : Z) : 0 <= c -> 2 ^ b < 2 ^ c -> b < c.
Proof.
  intros Hc H. apply (Z.pow_lt_mono_r_iff 2 b c); [lia | exact Hc | exact H].
Qed.

Lemma Zdigits2_small (m : Z) (k : Z) :
  0 <= m < 2 ^ k -> 0 <= k -> Zdigits2 m <= k.
Proof.
  intros [Hlo Hhi] Hk. destruct m as [|p|p]; cbn [Zdigits2]; try lia.
  pose proof (digits2_pos_spec p) as [Hd _].
  assert (Hlt : 2 ^ (Zpos (digits2_pos p) - 1) < 2 ^ k) by lia.
  apply pow2_lt_inv in Hlt; lia.
Qed.

(** One rounded multiplication by 0.40.  The exact product has
    mantissa [m * 7205759403792794] at exponent [e - 54]; it is shifted
    right by at most 54 bits, rounded, and shifted once more when the
    rounding carries into bit 53.  Only the least positive double, at
    mantissa 1 and exponent -1074, rounds to zero. *)
Lemma mul_040_step (m : positive) (e : Z) :
  Zpos m < 2 ^ 53 -> -1074 <= e <= 971 ->
  b64_mul (S754_finite false m e) b64_0_40 = S754_zero false \/
  exists (m' : positive) (e' : Z),
    b64_mul (S754_finite false m e) b64_0_40 = S754_finite false m' e' /\
    Zpos m' < 2 ^ 53 /\ -1074 <= e' <= 971 /\
    (e' < e \/ (e' = e /\ Zpos m' < Zpos m)).
Proof.
  intros Hm He.
  assert (Hcase : (m = 1%positive /\ e = -1074)
                  \/ (2 <= Zpos m \/ -1074 < e)) by lia.
  destruct Hcase as [[-> ->] | Hne]; [left; reflexivity|].
  unfold b64_mul, b64_0_40, SFmul. cbn [xorb].
  unfold binary_round_aux, shr_fexp. cbn [shr_record_of_loc].
  rewrite !fexp_b64.
  set (M := Zpos (m * 7205759403792794)).
  assert (HM : M = Zpos m * 7205759403792794) by (subst M; lia).
  set (E := e + -54).
  set (d := Zdigits2 M).
  assert (Hd : 53 <= d <= 106).
  { subst d M. cbn [Zdigits2].
    pose proof (digits2_pos_spec (m * 7205759403792794)) as [Hlo Hhi].
    rewrite Pos2Z.inj_mul in Hlo, Hhi.
    set (dd := Zpos (digits2_pos (m * 7205759403792794))) in *.
    assert (H1 : 2 ^ 52 < 2 ^ dd) by lia.
    assert (H2 : 2 ^ (dd - 1) < 2 ^ 106) by lia.
    apply pow2_lt_inv in H1; [|lia].
    apply pow2_lt_inv in H2; lia. }
  assert (HMd : M < 2 ^ d).
  { subst d M. cbn [Zdigits2]. apply digits2_pos_spec. }
  set (n := Z.max (d + E - 53) (-1074) - E).
  assert (Hn : 0 <= n <= 54 /\ d <= n + 53 /\ (n = 54 -> e = -1074))
    by (subst n E; lia).
  destruct Hn as (Hn & Hdn & Hn54).
  pose proof (shr_spec M E n ltac:(lia)) as [Hm1 He1].
  destruct (shr {| shr_m := M; shr_r := false; shr_s := false |} E n)
    as [mrs1 e1]. cbn [fst snd] in Hm1, He1. cbv beta iota.
  rewrite fexp_b64.
  rewrite Z.max_l in Hm1, He1 by lia.
  set (P := 2 ^ n) in *.
  assert (HP : 0 < P) by (subst P; apply Z.pow_pos_nonneg; lia).
  assert (HP53 : 2 ^ d <= P * 2 ^ 53).
  { subst P. rewrite <- Z.pow_add_r by lia. apply Z.pow_le_mono_r; lia. }
  assert (Hdiv : P * shr_m mrs1 <= M < P * (shr_m mrs1 + 1)).
  { rewrite Hm1. split; [apply Z.mul_div_le; lia|].
    rewrite Z.mul_add_distr_l, Z.mul_1_r.
    pose proof (Z.mod_pos_bound M P HP) as Hmod.
    pose proof (Z.div_mod M P ltac:(lia)) as Hdm. lia. }
  set (m1 := shr_m mrs1) in *.
  assert (Hm1lt : 0 <= m1 < 2 ^ 53) by nia.
  pose proof (round_nearest_even_bounds m1 (loc_of_shr_record mrs1)) as Hm2.
  set (m2 := round_nearest_even m1 (loc_of_shr_record mrs1)) in *.
  set (n2 := Z.max (Zdigits2 m2 + e1 - 53) (-1074) - e1).
  pose proof (shr_spec m2 e1 n2 ltac:(lia)) as [Hm3 He3].
  destruct (shr {| shr_m := m2; shr_r := false; shr_s := false |} e1 n2)
    as [mrs3 e3]. cbn [fst snd] in Hm3, He3. cbv beta iota.
  assert (He1' : e1 = e - 54 + n) by (subst E; lia).
  assert (Hcarry : m2 < 2 ^ 53 \/ m2 = 2 ^ 53) by lia.
  destruct Hcarry as [Hsmall | Hbig].
  - assert (Hd2 : Zdigits2 m2 <= 53)
      by (apply Zdigits2_small; lia).
    assert (Hn2 : Z.max n2 0 = 0) by (subst n2; lia).
    rewrite Hn2, Z.div_1_r in Hm3. rewrite Hn2 in He3.
    rewrite Hm3.
    destruct m2 as [|q|q]; [left; reflexivity | | lia].
    right. exists q, e3.
    assert (Hle : (e3 <=? 1024 - 53) = true) by (apply Z.leb_le; lia).
    rewrite Hle.
    split; [reflexivity | split; [lia | split; [lia|]]].
    assert (Hn' : n <= 53 \/ n = 54) by lia.
    destruct Hn' as [Hn' | Hn']; [left; lia|].
    right. split; [lia|].
    specialize (Hn54 Hn'). subst P. rewrite Hn' in Hdiv.
    destruct Hne as [Hne | Hne]; [|lia].
    lia.
  - assert (Hm1eq : m1 = 2 ^ 53 - 1) by lia.
    assert (HPlt : P < 2 ^ 53) by nia.
    assert (Hnlt : n < 53).
    { subst P. apply pow2_lt_inv in HPlt; lia. }
    assert (Hn2 : Z.max n2 0 = 1).
    { subst n2. rewrite Hbig. change (Zdigits2 (2 ^ 53)) with 54. lia. }
    rewrite Hn2 in Hm3, He3. rewrite Hm3, Hbig.
    change (2 ^ 53 / 2 ^ 1) with (Zpos 4503599627370496).
    right. exists 4503599627370496%positive, e3.
    assert (Hle : (e3 <=? 1024 - 53) = true) by (apply Z.leb_le; lia).
    rewrite Hle.
    split; [reflexivity | split; [lia | split; [lia | left; lia]]].
Qed.

(** A positive finite double has a mantissa below [2^53] and an
    exponent between -1074 and 971. *)
Lemma positive_double_in_range (x : spec_float) :
  positive_double x = true -> in_range x.
Proof.
  destruct x as [s | s | | [|] m e]; cbn [positive_double]; try discriminate.
  intros H. right. exists m, e. split; [reflexivity|].
  unfold bounded, canonical_mantissa in H.
  apply andb_true_iff in H. destruct H as [Hc He].
  apply Z.eqb_eq in Hc. apply Z.leb_le in He.
  rewrite fexp_b64 in Hc. change (1024 - 53) with 971 in He.
  pose proof (digits2_pos_spec m) as [_ Hhi].
  assert (Hd : Zpos (digits2_pos m) <= 53) by lia.
  assert (Hp : 2 ^ Zpos (digits2_pos m) <= 2 ^ 53)
    by (apply Z.pow_le_mono_r; lia).
  lia.
Qed.

(** The product by 0.40 stays in range and has a lower rank. *)
Lemma mul_040_lowers_rank (x : spec_float) :
  in_range x -> x <> S754_zero false ->
  in_range (b64_mul x b64_0_40) /\ 0 <= rank (b64_mul x b64_0_40) < rank x.
Proof.
  intros [-> | (m & e & -> & Hm & He)] Hnz; [contradiction|].
  destruct (mul_040_step m e Hm He) as [Hz | (m' & e' & Heq & Hm' & He' & Hlt)].
  - rewrite Hz. split; [left; reflexivity|]. cbn [rank]. nia.
  - rewrite Heq. split; [right; exists m', e'; auto|]. cbn [rank].
    destruct Hlt as [Hlt | [-> Hlt]]; nia.
Qed.

End Binary64.

(** ** The staging loop in binary64 *)

Lemma rounded_stage_succ (x : spec_float) (i : nat) :
  rounded_stage x (S i) = rounded_stage (b64_mul x b64_0_40) i.
Proof.
  unfold rounded_stage.
  exact (Nat.iter_succ_r i spec_float (fun y => b64_mul y b64_0_40) x).
Qed.

Lemma natural_stage_count64_step (cur target : spec_float) (n : nat) :
  natural_stage_count64 cur target (S n) ->
  b64_gt cur target = true /\
  natural_stage_count64 (b64_mul cur b64_0_40) target n.
Proof.
  intros [Hexit Hrun]. split.
  - exact (Hrun 0%nat (Nat.lt_0_succ n)).
  - split.
    + now rewrite <- rounded_stage_succ.
    + intros m Hm. rewrite <- rounded_stage_succ. apply Hrun. lia.
Qed.

Lemma rounded_stages_tail (cur : spec_float) (n : nat) :
  map (rounded_stage cur) (seq 1 (S n))
  = [b64_mul cur b64_0_40]
    ++ map (rounded_stage (b64_mul cur b64_0_40)) (seq 1 n).
Proof.
  cbn [seq map app]. f_equal.
  rewrite <- seq_shift, map_map.
  apply map_ext. intros i. apply rounded_stage_succ.
Qed.

(** With fuel beyond the stage count the loop exits after exactly that
    many iterations, having appended the rounded products in order. *)
Lemma cod_loop64_natural (n : nat) :
  forall (target cur : spec_float) (vals : list spec_float) (k : Z)
         (fuel : nat),
  natural_stage_count64 cur target n -> (n < fuel)%nat ->
  cod_loop64 fuel target cur vals k
  = Return (rounded_stage cur n,
            vals ++ map (rounded_stage cur) (seq 1 n),
            (k + Z.of_nat n)%Z).
Proof.
  induction n as [|n IH]; intros target cur vals k [|fuel] Hn Hfuel;
    try lia; cbn [cod_loop64].
  - destruct Hn as [Hexit _]. cbn in Hexit. rewrite Hexit.
    cbn [seq map]. now rewrite app_nil_r, Z.add_0_r.
  - apply natural_stage_count64_step in Hn. destruct Hn as [Hgt Hn].
    rewrite Hgt. cbv zeta. rewrite (IH _ _ _ _ fuel Hn) by lia.
    rewrite <- rounded_stage_succ, <- app_assoc, rounded_stages_tail.
    replace (k + 1 + Z.of_nat n)%Z with (k + Z.of_nat (S n))%Z by lia.
    reflexivity.
Qed.

Lemma cod_loop64_starved (n : nat) :
  forall (fuel : nat) (target cur : spec_float) (vals : list spec_float)
         (k : Z),
  natural_stage_count64 cur target n -> (fuel <= n)%nat ->
  cod_loop64 fuel target cur vals k = OutOfFuel.
Proof.
  induction n as [|n IH]; intros [|fuel] target cur vals k Hn Hfuel;
    try reflexivity; try lia.
  apply natural_stage_count64_step in Hn. destruct Hn as [Hgt Hn].
  cbn [cod_loop64]. rewrite Hgt. cbv zeta. apply IH; [exact Hn | lia].
Qed.

(** Every run from a value in range reaches a value not above a positive
    target: the rank falls at each product and zero is not above it. *)
Lemma natural_stage_count64_exists (target : spec_float) :
  positive_double target = true ->
  forall cur : spec_float, in_range cur ->
  exists n : nat, natural_stage_count64 cur target n.
Proof.
  intros Htarget.
  assert (Hzero : b64_gt (S754_zero false) target = false).
  { destruct target as [s | s | | [|] m e]; try discriminate Htarget.
    reflexivity. }
  assert (Hall : forall (k : nat) (cur : spec_float),
            in_range cur -> (rank cur < Z.of_nat k)%Z ->
            exists n : nat, natural_stage_count64 cur target n).
  { induction k as [|k IH]; intros cur Hcur Hrank.
    - exfalso. destruct Hcur as [-> | (m & e & -> & Hm & He)];
        cbn [rank] in Hrank; nia.
    - destruct (b64_gt cur target) eqn:Hgt.
      + assert (Hnz : cur <> S754_zero false)
          by (intros ->; rewrite Hzero in Hgt; discriminate Hgt).
        destruct (mul_040_lowers_rank cur Hcur Hnz) as [Hnext Hlower].
        destruct (IH (b64_mul cur b64_0_40) Hnext ltac:(lia)) as [n Hn].
        exists (S n). destruct Hn as [Hexit Hrun]. split.
        * now rewrite rounded_stage_succ.
        * intros [|m] Hm; [exact Hgt|].
          rewrite rounded_stage_succ. apply Hrun. lia.
      + exists 0%nat. split; [exact Hgt | intros m Hm; lia]. }
  intros cur Hcur.
  apply (Hall (S (Z.to_nat (rank cur))) cur Hcur).
  assert (H0 : (0 <= rank cur)%Z).
  { destruct Hcur as [-> | (m & e & -> & Hm & He)]; cbn [rank]; nia. }
  lia.
Qed.

Lemma natural_stage_count64_unique (inlet target : spec_float) (n m : nat) :
  natural_stage_count64 inlet target n ->
  natural_stage_count64 inlet target m -> n = m.
Proof.
  intros [Hn1 Hn2] [Hm1 Hm2].
  destruct (Nat.lt_trichotomy n m) as [H | [H | H]]; [|exact H|].
  - specialize (Hm2 n H). congruence.
  - specialize (Hn2 m H). congruence.
Qed.

(** ** Running the engine with the staging loop in binary64 *)

Lemma capacity_nonzero64 (g : Sidebar64.t) :
  valid_process64 g -> ~ Sidebar64.reactor_size g / 2 == 0.
Proof. intros [Hv _]. exact (capacity_nonzero (exact g) Hv). Qed.

(** The state in which the binary64 staging loop of the engine exits. *)
Lemma staging_exit64 (inlet target : spec_float) (n : nat) :
  natural_stage_count64 inlet target n ->
  forall fuel : nat, (n < fuel)%nat ->
    cod_loop64 fuel target inlet [inlet] 0%Z
    = Return (rounded_stage inlet n, rounded_stages inlet n, Z.of_nat n).
Proof.
  intros Hn fuel Hfuel.
  rewrite (cod_loop64_natural n target inlet [inlet] 0%Z fuel Hn Hfuel).
  reflexivity.
Qed.

Ltac engine64_returns n Hrs Hrun :=
  exists n; intros ?fuel ?Hfuel;
  unfold calculate_design_values64; cbv zeta;
  rewrite (truediv_nonzero _ _ Hrs); cbn [bind];
  rewrite (Hrun _ ltac:(eassumption)); cbn [bind fst snd];
  reflexivity.

Ltac run_engine64 n Hrs Hrun :=
  eexists; split; [engine64_returns n Hrs Hrun | project_fields].

Ltac solve_valid64 :=
  split; [solve_valid | split; reflexivity].

Ltac solve_natural64 :=
  split;
  [ vm_compute; reflexivity
  | let m := fresh "m" in let Hm := fresh "Hm" in
    intros m Hm;
    repeat (destruct m as [|m]; [vm_compute; reflexivity|]); lia ].

(** ** Stage clamp and recorded sequence *)

(** The float literals of the examples below. *)
Example b64_literals :
  b64_decimal 40 100 = b64_0_40 /\
  b64_of_Z 160 = S754_finite false 5629499534213120 (-45) /\
  b64_decimal 1024 100 = S754_finite false 5764607523034235 (-49) /\
  b64_of_Z 1000 = S754_finite false 8796093022208000 (-43) /\
  SF2Q (b64_of_Z 160) == 160 /\
  10.24 < SF2Q (b64_decimal 1024 100).
Proof. repeat split; vm_compute; reflexivity. Qed.

(** C1, as stated, fails: with [cod_inlet = 160.0] and
    [cod_target = 10.24] three exact multiplications by 0.40 reach the
    target ([160 * 0.4^3 = 10.24], the natural stage count of the claim
    is 3), but the third rounded product of the loop is one unit in the
    last place above the float 10.24, so the loop runs a fourth time: the
    engine reports 4 stages, not [max(2, min(4, 3)) = 3], and records 5
    values, not 4. *)
Lemma stage_count_exceeds_exact_count_at_160 :
  valid_process64 rounding_sidebar64 /\
  natural_stage_count (SF2Q (b64_of_Z 160)) (SF2Q (b64_decimal 1024 100)) 3 /\
  exists r : DesignResult,
    returns64 rounding_sidebar64 default_rates r /\
    stages_needed r = 4%Z /\
    stages_needed r <> Z.max 2 (Z.min 4 (Z.of_nat 3)) /\
    length (cod_reduction_stages r) = 5%nat /\
    ~ Forall2 Qeq (cod_reduction_stages r)
        (geometric_stages (SF2Q (b64_of_Z 160)) 3).
Proof.
  assert (V : valid_process64 rounding_sidebar64) by solve_valid64.
  assert (N : natural_stage_count (SF2Q (b64_of_Z 160))
                (SF2Q (b64_decimal 1024 100)) 3) by solve_natural.
  assert (N64 : natural_stage_count64
                  (Sidebar64.cod_inlet rounding_sidebar64)
                  (Sidebar64.cod_target rounding_sidebar64) 4)
    by solve_natural64.
  split; [exact V | split; [exact N|]].
  pose proof (capacity_nonzero64 rounding_sidebar64 V) as Hrs.
  pose proof (staging_exit64 _ _ 4 N64) as Hrun.
  run_engine64 4%nat Hrs Hrun.
  split; [reflexivity | split; [discriminate | split; [reflexivity|]]].
  intros H. apply Forall2_length in H. discriminate H.
Qed.

(** C1, amended.  For validated inputs whose COD values are positive
    finite binary64 floats, let [n] be the number of stages the loop
    runs: the least number of successive multiplications of [cod_inlet]
    by 0.40, each product rounded to binary64, after which the value is
    at or below [cod_target].  The engine returns a result whose
    [stages_needed] is [max(2, min(4, n))] while [cod_reduction_stages]
    is the unclamped sequence of the rounded products, inlet first, of
    length [n + 1]. *)
Theorem stage_clamp_keeps_rounded_sequence
    (g : Sidebar64.t) (c : Rates.t) (n : nat) :
  valid_process64 g ->
  natural_stage_count64 (Sidebar64.cod_inlet g) (Sidebar64.cod_target g) n ->
  exists r : DesignResult,
    returns64 g c r /\
    stages_needed r = Z.max 2 (Z.min 4 (Z.of_nat n)) /\
    cod_reduction_stages r
      = map SF2Q (rounded_stages (Sidebar64.cod_inlet g) n) /\
    length (cod_reduction_stages r) = S n.
Proof.
  intros Hv Hn.
  pose proof (capacity_nonzero64 g Hv) as Hrs.
  pose proof (staging_exit64 _ _ n Hn) as Hrun.
  run_engine64 n Hrs Hrun.
  repeat split.
  unfold rounded_stages. now rewrite !length_map, length_seq.
Qed.

Lemma stage_clamp_rounded_examples :
  (valid_process64 (sidebar64 10 (b64_of_Z 1000) (b64_of_Z 900) 1.5) /\
   natural_stage_count64 (b64_of_Z 1000) (b64_of_Z 900) 1 /\
   exists r : DesignResult,
     returns64 (sidebar64 10 (b64_of_Z 1000) (b64_of_Z 900) 1.5)
       default_rates r /\
     stages_needed r = 2%Z /\
     cod_reduction_stages r
       = map SF2Q (rounded_stages (b64_of_Z 1000) 1) /\
     length (cod_reduction_stages r) = 2%nat) /\
  (valid_process64 (sidebar64 10 (b64_of_Z 1000) (b64_decimal 1 1000) 1.5) /\
   natural_stage_count64 (b64_of_Z 1000) (b64_decimal 1 1000) 16 /\
   exists r : DesignResult,
     returns64 (sidebar64 10 (b64_of_Z 1000) (b64_decimal 1 1000) 1.5)
       default_rates r /\
     stages_needed r = 4%Z /\
     cod_reduction_stages r
       = map SF2Q (rounded_stages (b64_of_Z 1000) 16) /\
     length (cod_reduction_stages r) = 17%nat).
Proof.
  assert (V1 : valid_process64
                 (sidebar64 10 (b64_of_Z 1000) (b64_of_Z 900) 1.5))
    by solve_valid64.
  assert (N1 : natural_stage_count64 (b64_of_Z 1000) (b64_of_Z 900) 1)
    by solve_natural64.
  assert (V2 : valid_process64
                 (sidebar64 10 (b64_of_Z 1000) (b64_decimal 1 1000) 1.5))
    by solve_valid64.
  assert (N2 : natural_stage_count64 (b64_of_Z 1000)
                 (b64_decimal 1 1000) 16) by solve_natural64.
  split; (split; [assumption | split; [assumption|]]).
  - exact (stage_clamp_keeps_rounded_sequence
             (sidebar64 10 (b64_of_Z 1000) (b64_of_Z 900) 1.5)
             default_rates 1 V1 N1).
  - exact (stage_clamp_keeps_rounded_sequence
             (sidebar64 10 (b64_of_Z 1000) (b64_decimal 1 1000) 1.5)
             default_rates 16 V2 N2).
Defined.

(** ** Termination of the staging loop *)

(** C7, as stated, fails on the iteration count: with
    [cod_inlet = 160.0] and [cod_target = 10.24] the least [n] with
    [cod_inlet * 0.4^n <= cod_target] is 3, yet after three iterations
    the loop is still running (fuel for three iterations and the exit
    test is not enough) and it exits after the fourth. *)
Lemma staging_runs_four_times_at_160 :
  valid_process64 rounding_sidebar64 /\
  natural_stage_count (SF2Q (b64_of_Z 160)) (SF2Q (b64_decimal 1024 100)) 3 /\
  cod_loop64 4 (b64_decimal 1024 100) (b64_of_Z 160) [b64_of_Z 160] 0%Z
  = OutOfFuel /\
  exists (cur : spec_float) (vals : list spec_float),
    cod_loop64 5 (b64_decimal 1024 100) (b64_of_Z 160) [b64_of_Z 160] 0%Z
    = Return (cur, vals, 4%Z).
Proof.
  split; [solve_valid64 | split; [solve_natural | split]].
  - vm_compute. reflexivity.
  - eexists. eexists. vm_compute. reflexivity.
Qed.

(** C7, amended.  On the validated domain, the COD values being positive
    finite binary64 floats, the staging loop terminates after exactly
    [n] iterations, [n] being the least number of successive
    multiplications of [cod_inlet] by 0.40, each product rounded to
    binary64, after which the value is at or below [cod_target]: [n]
    units of fuel are not enough, any more are, and the loop counter is
    then [n]; the engine returns a result and raises nothing. *)
Theorem engine_total_binary64 (g : Sidebar64.t) (c : Rates.t) :
  valid_process64 g ->
  exists (n : nat) (r : DesignResult),
    natural_stage_count64 (Sidebar64.cod_inlet g) (Sidebar64.cod_target g) n /\
    (forall fuel : nat, (fuel <= n)%nat ->
       cod_loop64 fuel (Sidebar64.cod_target g) (Sidebar64.cod_inlet g)
         [Sidebar64.cod_inlet g] 0%Z = OutOfFuel) /\
    (forall fuel : nat, (n < fuel)%nat ->
       cod_loop64 fuel (Sidebar64.cod_target g) (Sidebar64.cod_inlet g)
         [Sidebar64.cod_inlet g] 0%Z
       = Return (rounded_stage (Sidebar64.cod_inlet g) n,
                 rounded_stages (Sidebar64.cod_inlet g) n, Z.of_nat n)) /\
    (forall fuel : nat, (n < fuel)%nat ->
       calculate_design_values64 fuel g c = Return r).
Proof.
  intros Hv.
  pose proof (capacity_nonzero64 g Hv) as Hrs.
  destruct Hv as (_ & Hinlet & Htarget).
  destruct (natural_stage_count64_exists _ Htarget _
              (positive_double_in_range _ Hinlet)) as [n Hn].
  pose proof (staging_exit64 _ _ n Hn) as Hrun.
  exists n. eexists.
  split; [exact Hn | split; [|split]].
  - intros fuel Hfuel. now apply cod_loop64_starved with (n := n).
  - exact Hrun.
  - intros fuel Hfuel.
    unfold calculate_design_values64; cbv zeta.
    rewrite (truediv_nonzero _ _ Hrs); cbn [bind].
    rewrite (Hrun fuel Hfuel); cbn [bind fst snd].
    reflexivity.
Qed.

Lemma engine_total_binary64_default :
  valid_process64 default_sidebar64 /\
  exists (n : nat) (r : DesignResult),
    natural_stage_count64 (b64_of_Z 1000) (b64_of_Z 75) n /\
    (forall fuel : nat, (fuel <= n)%nat ->
       cod_loop64 fuel (b64_of_Z 75) (b64_of_Z 1000) [b64_of_Z 1000] 0%Z
       = OutOfFuel) /\
    (forall fuel : nat, (n < fuel)%nat ->
       cod_loop64 fuel (b64_of_Z 75) (b64_of_Z 1000) [b64_of_Z 1000] 0%Z
       = Return (rounded_stage (b64_of_Z 1000) n,
                 rounded_stages (b64_of_Z 1000) n, Z.of_nat n)) /\
    (forall fuel : nat, (n < fuel)%nat ->
       calculate_design_values64 fuel default_sidebar64 default_rates
       = Return r).
Proof.
  assert (V : valid_process64 default_sidebar64) by solve_valid64.
  split; [exact V|].
  exact (engine_total_binary64 default_sidebar64 default_rates V).
Defined.

(** ** Target at or above the inlet *)

Lemma capacity_nonzero_of_size (g : Sidebar.t) :
  Sidebar.reactor_size g == 1.5 \/ Sidebar.reactor_size g == 2 ->
  ~ Sidebar.reactor_size g / 2 == 0.
Proof.
  intros [H | H] H0; rewrite H in H0; discriminate H0.
Qed.

(** C8, as stated, fails: with [cod_inlet = 1000] and [cod_target = 1200]
    (both positive, target at or above inlet) the staging loop does not
    run forever. *)
Lemma staging_exits_at_1000_1200 :
  0 < 1000 /\ 0 < 1200 /\ 1000 <= 1200 /\ ~ staging_diverges 1000 1200.
Proof.
  repeat split; try discriminate.
  intros H. specialize (H 1%nat). discriminate H.
Qed.

(** C8, amended.  When [cod_target >= cod_inlet] the loop condition is
    false at entry: the loop exits at once without running its body, the
    engine returns, the recorded sequence is the inlet value alone and
    the stage count, naturally 0, is clamped to 2. *)
Theorem staging_skipped_when_target_not_below_inlet
    (g : Sidebar.t) (c : Rates.t) :
  Sidebar.cod_inlet g <= Sidebar.cod_target g ->
  Sidebar.reactor_size g == 1.5 \/ Sidebar.reactor_size g == 2 ->
  (forall fuel : nat,
     cod_loop (S fuel) (Sidebar.cod_target g) (Sidebar.cod_inlet g)
       [Sidebar.cod_inlet g] 0%Z
     = Return (Sidebar.cod_inlet g, [Sidebar.cod_inlet g], 0%Z)) /\
  exists r : DesignResult,
    returns g c r /\
    cod_reduction_stages r = [Sidebar.cod_inlet g] /\
    stages_needed r = 2%Z.
Proof.
  intros Hle Hsize.
  pose proof (capacity_nonzero_of_size g Hsize) as Hrs.
  assert (Hrun : forall fuel : nat, (0 < fuel)%nat ->
            cod_loop fuel (Sidebar.cod_target g) (Sidebar.cod_inlet g)
              [Sidebar.cod_inlet g] 0%Z
            = Return (Sidebar.cod_inlet g, [Sidebar.cod_inlet g], 0%Z)).
  { intros [|fuel] Hfuel; [lia|]. now apply cod_loop_skip. }
  split.
  - intros fuel. apply Hrun. lia.
  - run_engine 0%nat Hrs Hrun. split; reflexivity.
Qed.

Lemma staging_skipped_at_1000_1200 :
  (1000 <= 1200 /\ (1.5 == 1.5 \/ 1.5 == 2)) /\
  (forall fuel : nat,
     cod_loop (S fuel) 1200 1000 [1000] 0%Z = Return (1000, [1000], 0%Z)) /\
  exists r : DesignResult,
    returns (sidebar 10 1000 1200 1.5) default_rates r /\
    cod_reduction_stages r = [1000] /\
    stages_needed r = 2%Z.
Proof.
  assert (H1 : 1000 <= 1200) by discriminate.
  assert (H2 : 1.5 == 1.5 \/ 1.5 == 2) by (left; reflexivity).
  split; [split; assumption|].
  exact (staging_skipped_when_target_not_below_inlet
           (sidebar 10 1000 1200 1.5) default_rates H1 H2).
Defined.

(** ** Ozone generation power cost *)

(** C3, as stated, fails: at the widget defaults the reported monthly
    ozone power cost is 42.75 while the COD-load basis gives 171. *)
Lemma ozone_power_cost_not_on_cod_load :
  valid_process default_sidebar /\
  valid_rates default_sidebar default_rates /\
  exists r : DesignResult,
    returns default_sidebar default_rates r /\
    monthly_ozone_power_cost r == 42.75 /\
    spec_monthly_ozone_power_cost default_sidebar default_rates == 171 /\
    ~ monthly_ozone_power_cost r
      == spec_monthly_ozone_power_cost default_sidebar default_rates.
Proof.
  split; [solve_valid | split; [solve_valid|]].
  assert (Hrs : ~ Sidebar.reactor_size default_sidebar / 2 == 0)
    by discriminate.
  assert (N : natural_stage_count (Sidebar.cod_inlet default_sidebar)
                (Sidebar.cod_target default_sidebar) 3) by solve_natural.
  destruct (staging_exit default_sidebar 3 N) as (cur & vals & Hrun & _).
  run_engine 3%nat Hrs Hrun.
  repeat split; discriminate.
Qed.

(** C3, amended.  The monthly ozone power cost is computed on the ozone
    mass requirement, which is 0.25 times the daily COD load:
    [0.25 * (flowrate * cod_inlet / 1000) * ozone_power_consumption * 30
     * electricity_cost], a quarter of the figure on the COD-load basis. *)
Theorem ozone_power_cost_on_ozone_mass (g : Sidebar.t) (c : Rates.t) :
  valid_process g ->
  exists r : DesignResult,
    returns g c r /\
    cod_load_kg_per_day r = Sidebar.flowrate g * Sidebar.cod_inlet g / 1000 /\
    ozone_requirement_kg_per_day r = 0.25 * cod_load_kg_per_day r /\
    monthly_ozone_power_cost r
      = ozone_requirement_kg_per_day r * Rates.ozone_power_consumption c
        * 30 * Sidebar.electricity_cost g /\
    monthly_ozone_power_cost r
      == 0.25 * spec_monthly_ozone_power_cost g c.
Proof.
  intros Hv.
  pose proof (capacity_nonzero g Hv) as Hrs.
  destruct Hv as (_ & Htarget & _).
  destruct (natural_stage_count_exists (Sidebar.cod_inlet g) _ Htarget)
    as [n Hn].
  destruct (staging_exit g n Hn) as (cur & vals & Hrun & _).
  run_engine n Hrs Hrun.
  repeat split. unfold spec_monthly_ozone_power_cost. field.
Qed.

Lemma ozone_power_cost_default :
  valid_process default_sidebar /\
  exists r : DesignResult,
    returns default_sidebar default_rates r /\
    cod_load_kg_per_day r = 10 * 1000 / 1000 /\
    ozone_requirement_kg_per_day r = 0.25 * cod_load_kg_per_day r /\
    monthly_ozone_power_cost r
      = ozone_requirement_kg_per_day r * 3 * 30 * 0.19 /\
    monthly_ozone_power_cost r
      == 0.25 * spec_monthly_ozone_power_cost default_sidebar default_rates.
Proof.
  assert (V : valid_process default_sidebar) by solve_valid.
  split; [exact V|].
  exact (ozone_power_cost_on_ozone_mass default_sidebar default_rates V).
Defined.

(** ** CAPEX roll-up *)

(** C2.  For validated inputs the returned CAPEX figures satisfy, as
    exact identities of the computed expressions: [piping_cost] is
    [(aop_reactor_cost + pump_cost) * piping_factor]; [filter_cost] is
    [filter_unit_cost] times the continuous required filter area
    [total_pump_flow_rate / 10]; with [direct_costs] the sum of the seven
    named components, [epc_cost = direct_costs * epc_factor] and
    [total_capex = direct_costs + epc_cost]. *)
Theorem capex_roll_up (g : Sidebar.t) (c : Rates.t) :
  valid_process g ->
  exists r : DesignResult,
    returns g c r /\
    let required_filter_area := total_pump_flow_rate r / 10 in
    let direct_costs :=
      aop_reactor_cost r + ozone_generator_cost r + pump_cost r
      + filter_cost r + ph_adjustment_cost r + piping_cost r
      + container_cost r in
    piping_cost r = (aop_reactor_cost r + pump_cost r) * Rates.piping_factor c /\
    filter_cost r = Rates.filter_unit_cost c * required_filter_area /\
    container_cost r
      = inject_Z (num_20ft_containers r) * Rates.container_20ft_cost c
        + inject_Z (num_40ft_containers r) * Rates.container_40ft_cost c /\
    epc_cost r = direct_costs * Rates.epc_factor c /\
    total_capex r = direct_costs + epc_cost r.
Proof.
  intros Hv.
  pose proof (capacity_nonzero g Hv) as Hrs.
  destruct Hv as (_ & Htarget & _).
  destruct (natural_stage_count_exists (Sidebar.cod_inlet g) _ Htarget)
    as [n Hn].
  destruct (staging_exit g n Hn) as (cur & vals & Hrun & _).
  run_engine n Hrs Hrun.
  repeat split.
Qed.

Lemma capex_roll_up_default :
  valid_process default_sidebar /\
  exists r : DesignResult,
    returns default_sidebar default_rates r /\
    let required_filter_area := total_pump_flow_rate r / 10 in
    let direct_costs :=
      aop_reactor_cost r + ozone_generator_cost r + pump_cost r
      + filter_cost r + ph_adjustment_cost r + piping_cost r
      + container_cost r in
    piping_cost r = (aop_reactor_cost r + pump_cost r) * (30 / 100) /\
    filter_cost r = 650 * required_filter_area /\
    container_cost r
      = inject_Z (num_20ft_containers r) * 6000
        + inject_Z (num_40ft_containers r) * 7000 /\
    epc_cost r = direct_costs * (30 / 100) /\
    total_capex r = direct_costs + epc_cost r.
Proof.
  assert (V : valid_process default_sidebar) by solve_valid.
  split; [exact V|].
  exact (capex_roll_up default_sidebar default_rates V).
Defined.

(** ** Counts: trains, stages, pumps, filters, containers *)

Ltac Zify.zify_post_hook ::= Z.to_euclidean_division_equations.

Lemma Qdiv_pos (a b : Q) : 0 < a -> 0 < b -> 0 < a / b.
Proof.
  intros Ha Hb. unfold Qdiv. apply Qmult_lt_0_compat; [exact Ha|].
  now apply Qinv_lt_0_compat.
Qed.

Lemma Qdiv_le_mono (a b c : Q) : 0 < c -> a <= b -> a / c <= b / c.
Proof.
  intros Hc Hab. unfold Qdiv. apply Qmult_le_compat_r; [exact Hab|].
  apply Qlt_le_weak. now apply Qinv_lt_0_compat.
Qed.

Lemma size_pos (g : Sidebar.t) : valid_process g -> 0 < Sidebar.reactor_size g.
Proof. intros (_ & _ & _ & _ & _ & [H | H]); rewrite H; reflexivity. Qed.

Lemma ratio_pos (g : Sidebar.t) :
  valid_process g ->
  0 < Sidebar.flowrate g / 24 / (Sidebar.reactor_size g / 2).
Proof.
  intros Hv. pose proof (size_pos g Hv) as Hs. destruct Hv as (Hf & _).
  repeat apply Qdiv_pos; try assumption; reflexivity.
Qed.

Lemma trains_low_flow (g : Sidebar.t) :
  valid_process g -> Sidebar.flowrate g <= 15 ->
  Qceiling (Sidebar.flowrate g / 24 / (Sidebar.reactor_size g / 2)) = 1%Z.
Proof.
  intros Hv Hlow. apply Qceiling_unit; [now apply ratio_pos|].
  destruct Hv as (Hf & _ & _ & _ & _ & [H | H]); rewrite H.
  - assert (E : Sidebar.flowrate g / 24 / (1.5 / 2)
                == Sidebar.flowrate g * (1 # 18)) by field.
    rewrite E. lra.
  - assert (E : Sidebar.flowrate g / 24 / (2 / 2)
                == Sidebar.flowrate g * (1 # 24)) by field.
    rewrite E. lra.
Qed.

Lemma filter_units_single_train (g : Sidebar.t) :
  valid_process g ->
  Z.max 2 (Qceiling (Sidebar.reactor_size g / 0.25 * inject_Z 1 / 10 / 5))
  = 2%Z.
Proof.
  intros (_ & _ & _ & _ & _ & [H | H]); rewrite H; reflexivity.
Qed.

(** The container branch, case by case. *)
Lemma housing_spec (low_flow : bool) (u : Z) :
  let n20 := fst (housing low_flow u) in
  let n40 := snd (housing low_flow u) in
  (low_flow = true -> n20 = 1 /\ n40 = 0)%Z /\
  (low_flow = false -> (u <= 12)%Z -> n20 = 0 /\ n40 = 1)%Z /\
  (low_flow = false -> (12 < u)%Z ->
     (0 < u mod 12 <= 6 -> n20 = 1 /\ n40 = u / 12)%Z /\
     (6 < u mod 12 -> n20 = 0 /\ n40 = u / 12 + 1)%Z /\
     (u mod 12 = 0 -> n20 = 0 /\ n40 = u / 12)%Z).
Proof.
  unfold housing. cbv zeta.
  destruct low_flow; cbn [fst snd].
  - repeat split; intros; try discriminate; lia.
  - destruct (Z.leb_spec u 12); cbn [fst snd].
    + repeat split; intros; try discriminate; lia.
    + destruct (Z.gtb_spec (u mod 12) 0);
        [destruct (Z.leb_spec (u mod 12) 6)|];
        cbn [fst snd]; repeat split; intros; try discriminate; lia.
Qed.

Lemma housing_bounds (low_flow : bool) (u : Z) :
  (0 <= fst (housing low_flow u) <= 1)%Z /\
  (0 <= snd (housing low_flow u))%Z /\
  (1 <= fst (housing low_flow u) + snd (housing low_flow u))%Z.
Proof.
  unfold housing. cbv zeta.
  destruct low_flow; cbn [fst snd]; [lia|].
  destruct (Z.leb_spec u 12); cbn [fst snd]; [lia|].
  destruct (Z.gtb_spec (u mod 12) 0);
    [destruct (Z.leb_spec (u mod 12) 6)|]; cbn [fst snd]; lia.
Qed.

(** Name the counts of a projected result: [trains], [stages], [funits],
    and fold the container branch into [housing]. *)
Ltac name_counts g n :=
  rewrite ?np_ceil_idem, ?int_np_ceil;
  set (trains :=
         Qceiling (Sidebar.flowrate g / 24 / (Sidebar.reactor_size g / 2)));
  set (stages := Z.max 2 (Z.min 4 (Z.of_nat n)));
  set (funits := Z.max 2 (Qceiling _));
  fold (housing (Qle_bool (Sidebar.flowrate g) 15)
          (trains * stages + funits)).

Ltac enter_engine g c Hv n Hn cur vals Hrun Hrs :=
  pose proof (capacity_nonzero g Hv) as Hrs;
  destruct (natural_stage_count_exists (Sidebar.cod_inlet g)
              (Sidebar.cod_target g) (proj1 (proj2 Hv))) as [n Hn];
  destruct (staging_exit g n Hn) as (cur & vals & Hrun & _).

(** ** Container housing *)

(** C4.  For validated inputs the container counts follow the ordered
    policy: [flowrate <= 15] gives (1, 0) whatever the equipment count;
    otherwise at most 12 units give (0, 1); otherwise with
    [q = units // 12] and [rem = units % 12]: (1, q) when [0 < rem <= 6],
    (0, q + 1) when [rem > 6], (0, q) when [rem = 0].  The equipment count
    is [total_reactors + filter_units] and the container cost is
    [num_20ft * container_20ft_cost + num_40ft * container_40ft_cost]. *)
Theorem container_policy (g : Sidebar.t) (c : Rates.t) :
  valid_process g ->
  exists r : DesignResult,
    returns g c r /\
    let units := total_equipment_units r in
    let n20 := num_20ft_containers r in
    let n40 := num_40ft_containers r in
    units = (total_reactors r + filter_units r)%Z /\
    container_cost r
      = inject_Z n20 * Rates.container_20ft_cost c
        + inject_Z n40 * Rates.container_40ft_cost c /\
    (Sidebar.flowrate g <= 15 -> (n20 = 1 /\ n40 = 0)%Z) /\
    (15 < Sidebar.flowrate g -> (units <= 12 -> n20 = 0 /\ n40 = 1)%Z) /\
    (15 < Sidebar.flowrate g -> (12 < units)%Z ->
       (0 < units mod 12 <= 6 -> n20 = 1 /\ n40 = units / 12)%Z /\
       (6 < units mod 12 -> n20 = 0 /\ n40 = units / 12 + 1)%Z /\
       (units mod 12 = 0 -> n20 = 0 /\ n40 = units / 12)%Z).
Proof.
  intros Hv. enter_engine g c Hv n Hn cur vals Hrun Hrs.
  run_engine n Hrs Hrun. name_counts g n. cbv zeta.
  pose proof (housing_spec (Qle_bool (Sidebar.flowrate g) 15)
                (trains * stages + funits)) as (Hlow & Hone & Hmany).
  split; [reflexivity | split; [reflexivity|]].
  split; [|split].
  - intros Hf. apply Hlow. now apply Qle_bool_iff.
  - intros Hf. apply Hone. apply gt_true_iff in Hf. unfold gt in Hf.
    now apply negb_true_iff.
  - intros Hf. apply Hmany. apply gt_true_iff in Hf. unfold gt in Hf.
    now apply negb_true_iff.
Qed.

Lemma container_policy_at_150 :
  valid_process (sidebar 150 1000 75 1.5) /\
  exists r : DesignResult,
    returns (sidebar 150 1000 75 1.5) default_rates r /\
    let units := total_equipment_units r in
    let n20 := num_20ft_containers r in
    let n40 := num_40ft_containers r in
    units = (total_reactors r + filter_units r)%Z /\
    container_cost r = inject_Z n20 * 6000 + inject_Z n40 * 7000 /\
    (150 <= 15 -> (n20 = 1 /\ n40 = 0)%Z) /\
    (15 < 150 -> (units <= 12 -> n20 = 0 /\ n40 = 1)%Z) /\
    (15 < 150 -> (12 < units)%Z ->
       (0 < units mod 12 <= 6 -> n20 = 1 /\ n40 = units / 12)%Z /\
       (6 < units mod 12 -> n20 = 0 /\ n40 = units / 12 + 1)%Z /\
       (units mod 12 = 0 -> n20 = 0 /\ n40 = units / 12)%Z).
Proof.
  assert (V : valid_process (sidebar 150 1000 75 1.5)) by solve_valid.
  split; [exact V|].
  exact (container_policy (sidebar 150 1000 75 1.5) default_rates V).
Defined.

(** ** Hydraulic train count *)

(** C5.  For validated inputs [num_reactor_trains] is
    [ceil((flowrate / 24) / (reactor_size / 2))] and [total_reactors] is
    [num_reactor_trains * stages_needed]; two validated inputs with the
    same flowrate and reactor size have the same train count whatever
    their COD values and rates. *)
Theorem trains_from_hydraulics (g g' : Sidebar.t) (c c' : Rates.t) :
  valid_process g -> valid_process g' ->
  Sidebar.flowrate g' == Sidebar.flowrate g ->
  Sidebar.reactor_size g' == Sidebar.reactor_size g ->
  exists r r' : DesignResult,
    returns g c r /\ returns g' c' r' /\
    num_reactor_trains r
      = Qceiling (Sidebar.flowrate g / 24 / (Sidebar.reactor_size g / 2)) /\
    total_reactors r = (num_reactor_trains r * stages_needed r)%Z /\
    num_reactor_trains r' = num_reactor_trains r.
Proof.
  intros Hv Hv' Hflow Hsize.
  enter_engine g c Hv n Hn cur vals Hrun Hrs.
  enter_engine g' c' Hv' n' Hn' cur' vals' Hrun' Hrs'.
  eexists. eexists.
  split; [engine_returns n Hrs Hrun | split; [engine_returns n' Hrs' Hrun'|]].
  project_fields. rewrite !np_ceil_idem, !int_np_ceil.
  split; [reflexivity | split; [reflexivity|]].
  now rewrite Hflow, Hsize.
Qed.

Lemma trains_at_flowrate_48 :
  (valid_process (sidebar 48 1000 75 2) /\
   valid_process (sidebar 48 500 20 2) /\ 48 == 48 /\ 2 == 2) /\
  exists r r' : DesignResult,
    returns (sidebar 48 1000 75 2) default_rates r /\
    returns (sidebar 48 500 20 2) (rates 8000 5000) r' /\
    num_reactor_trains r = 2%Z /\
    total_reactors r = (num_reactor_trains r * stages_needed r)%Z /\
    num_reactor_trains r' = num_reactor_trains r.
Proof.
  assert (V : valid_process (sidebar 48 1000 75 2)) by solve_valid.
  assert (V' : valid_process (sidebar 48 500 20 2)) by solve_valid.
  assert (F : 48 == 48) by reflexivity.
  assert (S : 2 == 2) by reflexivity.
  split; [split; [exact V | split; [exact V' | split; [exact F | exact S]]]|].
  exact (trains_from_hydraulics (sidebar 48 1000 75 2) (sidebar 48 500 20 2)
           default_rates (rates 8000 5000) V V' F S).
Defined.

(** ** Floors *)

(** C9.  For validated inputs: at least one train; 2, 3 or 4 stages; at
    least 2 reactors; [total_pumps = 4 * num_reactor_trains + 2], hence at
    least 6; at least 2 filter units; at least 1 operator; at least one
    container. *)
Theorem floor_invariants (g : Sidebar.t) (c : Rates.t) :
  valid_process g ->
  exists r : DesignResult,
    returns g c r /\
    (1 <= num_reactor_trains r)%Z /\
    (stages_needed r = 2 \/ stages_needed r = 3 \/ stages_needed r = 4)%Z /\
    (2 <= total_reactors r)%Z /\
    (total_pumps r = 4 * num_reactor_trains r + 2)%Z /\
    (6 <= total_pumps r)%Z /\
    (2 <= filter_units r)%Z /\
    (1 <= operators_required r)%Z /\
    (1 <= num_20ft_containers r + num_40ft_containers r)%Z.
Proof.
  intros Hv. enter_engine g c Hv n Hn cur vals Hrun Hrs.
  run_engine n Hrs Hrun. name_counts g n.
  assert (Htrains : (1 <= trains)%Z)
    by (apply Qceiling_pos; now apply ratio_pos).
  assert (Hstages : (2 <= stages <= 4)%Z) by (subst stages; lia).
  pose proof (housing_bounds (Qle_bool (Sidebar.flowrate g) 15)
                (trains * stages + funits)) as (_ & _ & Hsum).
  repeat split; try lia; nia.
Qed.

Lemma floor_invariants_default :
  valid_process default_sidebar /\
  exists r : DesignResult,
    returns default_sidebar default_rates r /\
    (1 <= num_reactor_trains r)%Z /\
    (stages_needed r = 2 \/ stages_needed r = 3 \/ stages_needed r = 4)%Z /\
    (2 <= total_reactors r)%Z /\
    (total_pumps r = 4 * num_reactor_trains r + 2)%Z /\
    (6 <= total_pumps r)%Z /\
    (2 <= filter_units r)%Z /\
    (1 <= operators_required r)%Z /\
    (1 <= num_20ft_containers r + num_40ft_containers r)%Z.
Proof.
  assert (V : valid_process default_sidebar) by solve_valid.
  split; [exact V|].
  exact (floor_invariants default_sidebar default_rates V).
Defined.

(** ** Capacity of the 20ft branch *)

(** C10.  For validated inputs with [flowrate <= 15] there is one train,
    at most 4 stages and exactly 2 filter units, so the equipment count
    is at most 6, the capacity of the single 20ft container selected. *)
Theorem low_flow_fits_20ft (g : Sidebar.t) (c : Rates.t) :
  valid_process g -> Sidebar.flowrate g <= 15 ->
  exists r : DesignResult,
    returns g c r /\
    num_reactor_trains r = 1%Z /\
    (stages_needed r <= 4)%Z /\
    filter_units r = 2%Z /\
    total_equipment_units r = (total_reactors r + filter_units r)%Z /\
    (total_equipment_units r <= 6)%Z /\
    num_20ft_containers r = 1%Z /\ num_40ft_containers r = 0%Z.
Proof.
  intros Hv Hlow. enter_engine g c Hv n Hn cur vals Hrun Hrs.
  run_engine n Hrs Hrun.
  rewrite !np_ceil_idem, !int_np_ceil.
  rewrite !(trains_low_flow g Hv Hlow).
  rewrite !(filter_units_single_train g Hv).
  apply Qle_bool_iff in Hlow. rewrite Hlow. cbn [fst snd].
  repeat split; lia.
Qed.

Lemma low_flow_fits_20ft_default :
  (valid_process default_sidebar /\ 10 <= 15) /\
  exists r : DesignResult,
    returns default_sidebar default_rates r /\
    num_reactor_trains r = 1%Z /\
    (stages_needed r <= 4)%Z /\
    filter_units r = 2%Z /\
    total_equipment_units r = (total_reactors r + filter_units r)%Z /\
    (total_equipment_units r <= 6)%Z /\
    num_20ft_containers r = 1%Z /\ num_40ft_containers r = 0%Z.
Proof.
  assert (V : valid_process default_sidebar) by solve_valid.
  assert (L : 10 <= 15) by discriminate.
  split; [split; assumption|].
  exact (low_flow_fits_20ft default_sidebar default_rates V L).
Defined.

(** ** Monotonicity in the flowrate *)

Lemma housing_mono (low1 low2 : bool) (u1 u2 : Z) :
  (low2 = true -> low1 = true) -> (u1 <= u2)%Z ->
  (snd (housing low1 u1) <= snd (housing low2 u2))%Z /\
  (fst (housing low1 u1) <= fst (housing low2 u2)
   \/ snd (housing low1 u1) + 1 <= snd (housing low2 u2))%Z.
Proof.
  intros Hlow Hu. unfold housing. cbv zeta.
  destruct low1, low2; cbn [fst snd]; try lia;
    try (specialize (Hlow eq_refl); discriminate Hlow).
  - destruct (Z.leb_spec u2 12); cbn [fst snd]; [lia|].
    destruct (Z.gtb_spec (u2 mod 12) 0);
      [destruct (Z.leb_spec (u2 mod 12) 6)|]; cbn [fst snd]; lia.
  - destruct (Z.leb_spec u1 12), (Z.leb_spec u2 12); cbn [fst snd]; try lia.
    + destruct (Z.gtb_spec (u2 mod 12) 0);
        [destruct (Z.leb_spec (u2 mod 12) 6)|]; cbn [fst snd]; lia.
    + destruct (Z.gtb_spec (u1 mod 12) 0);
        [destruct (Z.leb_spec (u1 mod 12) 6)|];
        (destruct (Z.gtb_spec (u2 mod 12) 0);
          [destruct (Z.leb_spec (u2 mod 12) 6)|]);
        cbn [fst snd]; lia.
Qed.

Lemma housing_cost_mono (low1 low2 : bool) (u1 u2 : Z) (c20 c40 : Q) :
  (low2 = true -> low1 = true) -> (u1 <= u2)%Z ->
  0 <= c20 -> c20 <= c40 ->
  inject_Z (fst (housing low1 u1)) * c20
  + inject_Z (snd (housing low1 u1)) * c40
  <= inject_Z (fst (housing low2 u2)) * c20
     + inject_Z (snd (housing low2 u2)) * c40.
Proof.
  intros Hlow Hu H20 H40.
  destruct (housing_mono low1 low2 u1 u2 Hlow Hu) as [Hb Ha].
  pose proof (housing_bounds low1 u1) as ([Ha1 Ha1'] & _ & _).
  pose proof (housing_bounds low2 u2) as ([Ha2 Ha2'] & _ & _).
  rewrite Zle_Qle in Hb, Ha1, Ha1', Ha2, Ha2'.
  destruct Ha as [Ha | Ha]; rewrite Zle_Qle in Ha;
    [|rewrite inject_Z_plus in Ha];
    change (inject_Z 0) with 0 in *; change (inject_Z 1) with 1 in *;
    set (a1 := inject_Z (fst (housing low1 u1))) in *;
    set (b1 := inject_Z (snd (housing low1 u1))) in *;
    set (a2 := inject_Z (fst (housing low2 u2))) in *;
    set (b2 := inject_Z (snd (housing low2 u2))) in *;
    nra.
Qed.

Lemma capex_mono (a gc p fc ph pf e R1 R2 G1 G2 P1 P2 A1 A2 H1 H2 : Q) :
  0 <= a -> 0 <= gc -> 0 <= p -> 0 <= fc -> 0 <= pf -> 0 <= e ->
  R1 <= R2 -> G1 <= G2 -> P1 <= P2 -> A1 <= A2 -> H1 <= H2 ->
  a * R1 + G1 * gc + p * P1 + fc * A1 + ph + (a * R1 + p * P1) * pf + H1
  + (a * R1 + G1 * gc + p * P1 + fc * A1 + ph + (a * R1 + p * P1) * pf + H1)
    * e
  <= a * R2 + G2 * gc + p * P2 + fc * A2 + ph + (a * R2 + p * P2) * pf + H2
     + (a * R2 + G2 * gc + p * P2 + fc * A2 + ph + (a * R2 + p * P2) * pf + H2)
       * e.
Proof.
  intros Ha Hgc Hp Hfc Hpf He HR HG HP HA HH.
  assert (T1 : a * R1 <= a * R2) by nra.
  assert (T2 : G1 * gc <= G2 * gc) by nra.
  assert (T3 : p * P1 <= p * P2) by nra.
  assert (T4 : fc * A1 <= fc * A2) by nra.
  assert (T5 : (a * R1 + p * P1) * pf <= (a * R2 + p * P2) * pf) by nra.
  set (D1 := a * R1 + G1 * gc + p * P1 + fc * A1 + ph
             + (a * R1 + p * P1) * pf + H1).
  set (D2 := a * R2 + G2 * gc + p * P2 + fc * A2 + ph
             + (a * R2 + p * P2) * pf + H2).
  assert (HD : D1 <= D2) by (subst D1 D2; lra).
  nra.
Qed.

(** C6, as stated, fails: with a 20ft container costing 8000 and a 40ft
    container costing 5000 (both within the ranges the rate widgets
    allow), raising the flowrate from 15 to 16 and changing nothing else
    replaces the 20ft container by a 40ft one and lowers [total_capex]
    from 26708.5 to 22808.5. *)
Lemma capex_drops_from_flowrate_15_to_16 :
  valid_process (sidebar 15 1000 75 1.5) /\
  valid_process (with_flowrate (sidebar 15 1000 75 1.5) 16) /\
  valid_rates (sidebar 15 1000 75 1.5) (rates 8000 5000) /\
  15 <= 16 /\
  exists r r' : DesignResult,
    returns (sidebar 15 1000 75 1.5) (rates 8000 5000) r /\
    returns (with_flowrate (sidebar 15 1000 75 1.5) 16) (rates 8000 5000) r' /\
    total_capex r == 26708.5 /\
    total_capex r' == 22808.5 /\
    ~ total_capex r <= total_capex r'.
Proof.
  split; [solve_valid | split; [solve_valid | split; [solve_valid|]]].
  split; [discriminate|].
  assert (Hrs : ~ Sidebar.reactor_size (sidebar 15 1000 75 1.5) / 2 == 0)
    by discriminate.
  assert (N : natural_stage_count 1000 75 3) by solve_natural.
  destruct (staging_exit (sidebar 15 1000 75 1.5) 3 N)
    as (cur & vals & Hrun & _).
  destruct (staging_exit (with_flowrate (sidebar 15 1000 75 1.5) 16) 3 N)
    as (cur' & vals' & Hrun' & _).
  eexists. eexists.
  split; [engine_returns 3%nat Hrs Hrun
         | split; [engine_returns 3%nat Hrs Hrun'|]].
  project_fields.
  split; [reflexivity | split; [reflexivity|]].
  intros H. vm_compute in H. apply H. reflexivity.
Qed.

(** C6, amended.  Raising the flowrate and changing nothing else never
    lowers [total_reactors] or [total_pumps]; it never lowers
    [total_capex] provided the 20ft container costs no more than the 40ft
    container. *)
Theorem flowrate_monotone (g : Sidebar.t) (c : Rates.t) (flowrate' : Q) :
  valid_process g -> valid_rates g c ->
  Sidebar.flowrate g <= flowrate' ->
  exists r r' : DesignResult,
    returns g c r /\ returns (with_flowrate g flowrate') c r' /\
    (total_reactors r <= total_reactors r')%Z /\
    (total_pumps r <= total_pumps r')%Z /\
    (Rates.container_20ft_cost c <= Rates.container_40ft_cost c ->
     total_capex r <= total_capex r').
Proof.
  intros Hv Hc Hflow.
  assert (Hv' : valid_process (with_flowrate g flowrate')).
  { destruct Hv as (Hf & Hrest). split; [cbn; lra | exact Hrest]. }
  enter_engine g c Hv n Hn cur vals Hrun Hrs.
  pose proof (capacity_nonzero _ Hv') as Hrs'.
  destruct (staging_exit (with_flowrate g flowrate') n Hn)
    as (cur' & vals' & Hrun' & _).
  eexists. eexists.
  split; [engine_returns n Hrs Hrun | split; [engine_returns n Hrs' Hrun'|]].
  project_fields.
  cbn [with_flowrate Sidebar.flowrate Sidebar.reactor_size].
  rewrite !np_ceil_idem, !int_np_ceil.
  pose proof (size_pos g Hv) as Hsize.
  set (t1 := Qceiling (Sidebar.flowrate g / 24 / (Sidebar.reactor_size g / 2))).
  set (t2 := Qceiling (flowrate' / 24 / (Sidebar.reactor_size g / 2))).
  set (s := Z.max 2 (Z.min 4 (Z.of_nat n))).
  set (fu1 := Z.max 2 (Qceiling
                 (Sidebar.reactor_size g / 0.25 * inject_Z t1 / 10 / 5))).
  set (fu2 := Z.max 2 (Qceiling
                 (Sidebar.reactor_size g / 0.25 * inject_Z t2 / 10 / 5))).
  fold (housing (Qle_bool (Sidebar.flowrate g) 15) (t1 * s + fu1)).
  fold (housing (Qle_bool flowrate' 15) (t2 * s + fu2)).
  assert (Ht : (1 <= t1 <= t2)%Z).
  { split; [apply Qceiling_pos; now apply ratio_pos|].
    apply Qceiling_resp_le.
    apply Qdiv_le_mono; [apply Qdiv_pos; [exact Hsize | reflexivity]|].
    apply Qdiv_le_mono; [reflexivity | exact Hflow]. }
  assert (Hs : (2 <= s <= 4)%Z) by (subst s; lia).
  assert (Hfu : (fu1 <= fu2)%Z).
  { apply Z.max_le_compat_l. apply Qceiling_resp_le.
    repeat (apply Qdiv_le_mono; [reflexivity|]).
    apply Qmult_le_l; [apply Qdiv_pos; [exact Hsize | reflexivity]|].
    rewrite <- Zle_Qle. lia. }
  split; [nia | split; [lia|]].
  intros Hcont.
  destruct Hc as (Ha & Hp & Hfc & _ & Hgc & _ & _ & _ & _ & _ & _
                  & [Hpf _] & [He _] & H20 & _).
  apply capex_mono; try lra.
  - rewrite <- Zle_Qle. nia.
  - rewrite <- Zle_Qle. nia.
  - rewrite <- Zle_Qle. lia.
  - apply Qdiv_le_mono; [reflexivity|].
    apply Qmult_le_l; [apply Qdiv_pos; [exact Hsize | reflexivity]|].
    rewrite <- Zle_Qle. lia.
  - apply housing_cost_mono; [| nia | lra | exact Hcont].
    intros Hlow. apply Qle_bool_iff in Hlow. apply Qle_bool_iff. lra.
Qed.

Lemma flowrate_monotone_default :
  (valid_process default_sidebar /\
   valid_rates default_sidebar default_rates /\ 10 <= 150) /\
  exists r r' : DesignResult,
    returns default_sidebar default_rates r /\
    returns (with_flowrate default_sidebar 150) default_rates r' /\
    (total_reactors r <= total_reactors r')%Z /\
    (total_pumps r <= total_pumps r')%Z /\
    total_capex r <= total_capex r'.
Proof.
  assert (V : valid_process default_sidebar) by solve_valid.
  assert (R : valid_rates default_sidebar default_rates) by solve_valid.
  assert (F : 10 <= 150) by discriminate.
  split; [split; [exact V | split; [exact R | exact F]]|].
  destruct (flowrate_monotone default_sidebar default_rates 150 V R F)
    as (r & r' & Hr & Hr' & Hreactors & Hpumps & Hcapex).
  exists r, r'.
  split; [exact Hr | split; [exact Hr' | split; [exact Hreactors|]]].
  split; [exact Hpumps | apply Hcapex; discriminate].
Defined.

(** ** The widget defaults, computed *)

Example default_design_figures :
  exists r : DesignResult,
    returns default_sidebar default_rates r /\
    num_reactor_trains r = 1%Z /\
    stages_needed r = 3%Z /\
    Forall2 Qeq (cod_reduction_stages r) [1000; 400; 160; 64] /\
    total_pumps r = 6%Z /\
    filter_units r = 2%Z /\
    filter_cost r == 390 /\
    total_equipment_units r = 5%Z /\
    (num_20ft_containers r, num_40ft_containers r) = (1, 0)%Z /\
    total_capex r == 24108.5 /\
    monthly_ozone_power_cost r == 42.75.
Proof.
  assert (Hrs : ~ Sidebar.reactor_size default_sidebar / 2 == 0)
    by discriminate.
  assert (N : natural_stage_count (Sidebar.cod_inlet default_sidebar)
                (Sidebar.cod_target default_sidebar) 3) by solve_natural.
  destruct (staging_exit default_sidebar 3 N) as (cur & vals & Hrun & Hvals).
  run_engine 3%nat Hrs Hrun.
  repeat split; try reflexivity.
  apply (Forall2_Qeq_trans _ _ _ Hvals).
  repeat constructor.
Qed.

(** ** Exceptions and divergence of the engine *)

(** X1.  When [reactor_size] is zero the engine raises
    [ZeroDivisionError], whatever the fuel and whatever the other inputs:
    the division by the per-reactor capacity [reactor_size / 2] comes
    before the staging loop, so the error is raised before the loop is
    entered, also on COD values for which the loop would not exit. *)
Theorem zero_reactor_size_raises (fuel : nat) (g : Sidebar.t) (c : Rates.t) :
  Sidebar.reactor_size g == 0 ->
  calculate_design_values fuel g c = Raise ZeroDivisionError.
Proof.
  intros H.
  unfold calculate_design_values. cbv zeta. unfold truediv.
  assert (E : Qeq_bool (Sidebar.reactor_size g / 2) 0 = true).
  { apply Qeq_eq_bool. rewrite H. reflexivity. }
  rewrite E. reflexivity.
Qed.

Lemma zero_reactor_size_raises_before_divergence :
  0 == 0 /\
  calculate_design_values 0 (sidebar 10 1000 (-1) 0) default_rates
  = Raise ZeroDivisionError.
Proof.
  assert (H : 0 == 0) by reflexivity.
  split; [exact H|].
  exact (zero_reactor_size_raises 0 (sidebar 10 1000 (-1) 0) default_rates H).
Defined.

Lemma cod_loop_below_zero (fuel : nat) :
  forall (target cur : Q) (vals : list Q) (k : Z),
  target < 0 -> target < cur ->
  cod_loop fuel target cur vals k = OutOfFuel.
Proof.
  induction fuel as [|fuel IH]; intros target cur vals k Hneg Hlt;
    cbn [cod_loop]; [reflexivity|].
  assert (Hgt : gt cur target = true) by (now apply gt_true_iff).
  rewrite Hgt. cbv zeta. apply IH; lra.
Qed.

(** X2.  With a negative [cod_target] below [cod_inlet] (and a non-zero
    reactor size) the engine never returns: the staged COD stays above
    the target forever, so the loop runs out of any fuel. *)
Theorem diverges_on_negative_target (g : Sidebar.t) (c : Rates.t) :
  Sidebar.cod_target g < 0 ->
  Sidebar.cod_target g < Sidebar.cod_inlet g ->
  ~ Sidebar.reactor_size g == 0 ->
  forall fuel : nat, calculate_design_values fuel g c = OutOfFuel.
Proof.
  intros Hneg Hlt Hsize fuel.
  unfold calculate_design_values. cbv zeta.
  rewrite truediv_nonzero; cbn [bind].
  - now rewrite cod_loop_below_zero.
  - intros H. apply Hsize.
    assert (E : Sidebar.reactor_size g == Sidebar.reactor_size g / 2 * 2)
      by field.
    rewrite E, H. reflexivity.
Qed.

Lemma diverges_at_target_minus_1 :
  (-1 < 0 /\ -1 < 1000 /\ ~ 1.5 == 0) /\
  forall fuel : nat,
    calculate_design_values fuel (sidebar 10 1000 (-1) 1.5) default_rates
    = OutOfFuel.
Proof.
  assert (H1 : -1 < 0) by reflexivity.
  assert (H2 : -1 < 1000) by reflexivity.
  assert (H3 : ~ 1.5 == 0) by discriminate.
  split; [split; [exact H1 | split; [exact H2 | exact H3]]|].
  exact (diverges_on_negative_target (sidebar 10 1000 (-1) 1.5) default_rates
           H1 H2 H3).
Defined.

(** ** Adequacy of the sized equipment *)

Lemma housing_capacity (u : Z) :
  (1 <= u)%Z ->
  (u <= 6 * fst (housing false u) + 12 * snd (housing false u) < u + 12)%Z.
Proof.
  intros Hu. unfold housing. cbv zeta.
  destruct (Z.leb_spec u 12); cbn [fst snd]; [lia|].
  destruct (Z.gtb_spec (u mod 12) 0);
    [destruct (Z.leb_spec (u mod 12) 6)|]; cbn [fst snd]; lia.
Qed.

(** X3.  For validated inputs the selected containers have room for
    every equipment unit, 6 per 20ft and 12 per 40ft container; the spare
    room is less than one 40ft container and at most one 20ft container
    is used. *)
Theorem containers_hold_all_units (g : Sidebar.t) (c : Rates.t) :
  valid_process g ->
  exists r : DesignResult,
    returns g c r /\
    let capacity :=
      (6 * num_20ft_containers r + 12 * num_40ft_containers r)%Z in
    (total_equipment_units r <= capacity)%Z /\
    (capacity < total_equipment_units r + 12)%Z /\
    (num_20ft_containers r <= 1)%Z.
Proof.
  intros Hv. enter_engine g c Hv n Hn cur vals Hrun Hrs.
  destruct (Qlt_le_dec 15 (Sidebar.flowrate g)) as [Hhigh | Hlow].
  - run_engine n Hrs Hrun. name_counts g n. cbv zeta.
    assert (Htrains : (1 <= trains)%Z)
      by (apply Qceiling_pos; now apply ratio_pos).
    assert (Hflag : Qle_bool (Sidebar.flowrate g) 15 = false).
    { apply gt_true_iff in Hhigh. unfold gt in Hhigh.
      now apply negb_true_iff. }
    rewrite Hflag.
    pose proof (housing_capacity (trains * stages + funits)) as Hcap.
    pose proof (housing_bounds false (trains * stages + funits))
      as (Hone & _ & _).
    assert (Hu : (1 <= trains * stages + funits)%Z) by nia.
    specialize (Hcap Hu). lia.
  - run_engine n Hrs Hrun.
    rewrite !np_ceil_idem, !int_np_ceil.
    rewrite !(trains_low_flow g Hv Hlow).
    rewrite !(filter_units_single_train g Hv).
    apply Qle_bool_iff in Hlow. rewrite Hlow. cbn [fst snd]. cbv zeta.
    lia.
Qed.

Lemma containers_hold_all_units_default :
  (valid_process default_sidebar) /\
  (exists r : DesignResult,
    returns default_sidebar default_rates r /\
    let capacity :=
      (6 * num_20ft_containers r + 12 * num_40ft_containers r)%Z in
    (total_equipment_units r <= capacity)%Z /\
    (capacity < total_equipment_units r + 12)%Z /\
    (num_20ft_containers r <= 1)%Z).
Proof.
  assert (V : valid_process default_sidebar) by (solve_valid).
  split; [exact V|].
  exact (containers_hold_all_units default_sidebar default_rates V).
Defined.

(** X4.  For validated inputs the trains together cover the hourly flow,
    each train processing [reactor_size / 2] per hour, and one train
    fewer would not. *)
Theorem trains_cover_hourly_flow (g : Sidebar.t) (c : Rates.t) :
  valid_process g ->
  exists r : DesignResult,
    returns g c r /\
    let capacity_per_train := Sidebar.reactor_size g / 2 in
    let hourly_flow := Sidebar.flowrate g / 24 in
    hourly_flow <= inject_Z (num_reactor_trains r) * capacity_per_train /\
    inject_Z (num_reactor_trains r - 1) * capacity_per_train < hourly_flow.
Proof.
  intros Hv. enter_engine g c Hv n Hn cur vals Hrun Hrs.
  run_engine n Hrs Hrun. rewrite !np_ceil_idem, !int_np_ceil. cbv zeta.
  pose proof (size_pos g Hv) as Hsize.
  set (cap := Sidebar.reactor_size g / 2) in *.
  set (flow := Sidebar.flowrate g / 24) in *.
  assert (Hcap : 0 < cap) by (apply Qdiv_pos; [exact Hsize | reflexivity]).
  assert (E : flow == flow / cap * cap) by (field; lra).
  pose proof (Qle_ceiling (flow / cap)) as Hup.
  pose proof (Qceiling_lt (flow / cap)) as Hdown.
  set (x := flow / cap) in *.
  set (t := inject_Z (Qceiling x)) in *.
  set (t' := inject_Z (Qceiling x - 1)) in *.
  split; nra.
Qed.

Lemma trains_cover_hourly_flow_default :
  (valid_process default_sidebar) /\
  (exists r : DesignResult,
    returns default_sidebar default_rates r /\
    let capacity_per_train := Sidebar.reactor_size default_sidebar / 2 in
    let hourly_flow := Sidebar.flowrate default_sidebar / 24 in
    hourly_flow <= inject_Z (num_reactor_trains r) * capacity_per_train /\
    inject_Z (num_reactor_trains r - 1) * capacity_per_train < hourly_flow).
Proof.
  assert (V : valid_process default_sidebar) by (solve_valid).
  split; [exact V|].
  exact (trains_cover_hourly_flow default_sidebar default_rates V).
Defined.

(** X5.  For validated inputs the filter units, 5 m2 each, cover the
    required filter area [total_pump_flow_rate / 10]; up to the widget
    maximum of 150 m3/day the floor of 2 units decides and
    [filter_units] is exactly 2. *)
Theorem filters_cover_required_area (g : Sidebar.t) (c : Rates.t) :
  valid_process g ->
  exists r : DesignResult,
    returns g c r /\
    let required_filter_area := total_pump_flow_rate r / 10 in
    required_filter_area <= 5 * inject_Z (filter_units r) /\
    (Sidebar.flowrate g <= 150 -> filter_units r = 2%Z).
Proof.
  intros Hv. enter_engine g c Hv n Hn cur vals Hrun Hrs.
  run_engine n Hrs Hrun. rewrite !np_ceil_idem, !int_np_ceil. cbv zeta.
  set (trains :=
         Qceiling (Sidebar.flowrate g / 24 / (Sidebar.reactor_size g / 2))).
  set (area := Sidebar.reactor_size g / 0.25 * inject_Z trains / 10).
  split.
  - pose proof (Qle_ceiling (area / 5)) as Hup.
    assert (Hmax : inject_Z (Qceiling (area / 5))
                   <= inject_Z (Z.max 2 (Qceiling (area / 5))))
      by (rewrite <- Zle_Qle; lia).
    assert (E : area == area / 5 * 5) by field.
    set (y := area / 5) in *.
    set (a := inject_Z (Qceiling y)) in *.
    set (b := inject_Z (Z.max 2 (Qceiling y))) in *.
    lra.
  - intros Hflow.
    assert (Hle : (Qceiling (area / 5) <= 2)%Z).
    { change 2%Z with (Qceiling 2). apply Qceiling_resp_le.
      assert (Htrains : inject_Z trains <= 9 /\
                (Sidebar.reactor_size g == 2 -> inject_Z trains <= 7)).
      { subst trains.
        destruct Hv as (_ & _ & _ & _ & _ & [H | H]).
        - split; [|intros H2; rewrite H in H2; discriminate H2].
          change 9 with (inject_Z 9). rewrite <- Zle_Qle.
          change 9%Z with (Qceiling 9). apply Qceiling_resp_le.
          rewrite H.
          assert (E : Sidebar.flowrate g / 24 / (1.5 / 2)
                      == Sidebar.flowrate g * (1 # 18)) by field.
          rewrite E. lra.
        - assert (H7 : inject_Z
                    (Qceiling (Sidebar.flowrate g / 24
                               / (Sidebar.reactor_size g / 2))) <= 7).
          { change 7 with (inject_Z 7). rewrite <- Zle_Qle.
            change 7%Z with (Qceiling 7). apply Qceiling_resp_le.
            rewrite H.
            assert (E : Sidebar.flowrate g / 24 / (2 / 2)
                        == Sidebar.flowrate g * (1 # 24)) by field.
            rewrite E. lra. }
          split; [lra | intros _; exact H7]. }
      destruct Htrains as [H9 H7]. subst area.
      destruct Hv as (_ & _ & _ & _ & _ & [H | H]).
      - rewrite H.
        assert (E : 1.5 / 0.25 * inject_Z trains / 10 / 5
                    == inject_Z trains * (3 # 25)) by field.
        rewrite E. lra.
      - specialize (H7 H). rewrite H.
        assert (E : 2 / 0.25 * inject_Z trains / 10 / 5
                    == inject_Z trains * (4 # 25)) by field.
        rewrite E. lra. }
    lia.
Qed.

Lemma filters_cover_required_area_default :
  (valid_process default_sidebar) /\
  (exists r : DesignResult,
    returns default_sidebar default_rates r /\
    let required_filter_area := total_pump_flow_rate r / 10 in
    required_filter_area <= 5 * inject_Z (filter_units r) /\
    (Sidebar.flowrate default_sidebar <= 150 -> filter_units r = 2%Z)).
Proof.
  assert (V : valid_process default_sidebar) by (solve_valid).
  split; [exact V|].
  exact (filters_cover_required_area default_sidebar default_rates V).
Defined.

(** X6.  For validated inputs [operators_required] is the least number
    of operators with at most 8 reactors each: the floor of 1 in
    [max(1, ...)] never decides. *)
Theorem operators_cover_reactors (g : Sidebar.t) (c : Rates.t) :
  valid_process g ->
  exists r : DesignResult,
    returns g c r /\
    (total_reactors r <= 8 * operators_required r)%Z /\
    (8 * (operators_required r - 1) < total_reactors r)%Z.
Proof.
  intros Hv. enter_engine g c Hv n Hn cur vals Hrun Hrs.
  run_engine n Hrs Hrun. rewrite !np_ceil_idem, !int_np_ceil.
  set (trains :=
         Qceiling (Sidebar.flowrate g / 24 / (Sidebar.reactor_size g / 2))).
  set (stages := Z.max 2 (Z.min 4 (Z.of_nat n))).
  assert (Htrains : (1 <= trains)%Z)
    by (apply Qceiling_pos; now apply ratio_pos).
  assert (Hstages : (2 <= stages <= 4)%Z) by (subst stages; lia).
  set (tr := (trains * stages)%Z) in *.
  assert (Htr : (2 <= tr)%Z) by (subst tr; nia).
  pose proof (Qle_ceiling (inject_Z tr / 8)) as Hup.
  pose proof (Qceiling_lt (inject_Z tr / 8)) as Hdown.
  assert (E : inject_Z tr == inject_Z tr / 8 * 8) by field.
  set (k := Qceiling (inject_Z tr / 8)) in *.
  assert (H1 : inject_Z tr <= inject_Z (8 * k)).
  { rewrite inject_Z_mult. change (inject_Z 8) with 8.
    set (y := inject_Z tr / 8) in *. lra. }
  assert (H2 : inject_Z (8 * (k - 1)) < inject_Z tr).
  { rewrite inject_Z_mult. change (inject_Z 8) with 8.
    set (y := inject_Z tr / 8) in *. lra. }
  rewrite <- Zle_Qle in H1. rewrite <- Zlt_Qlt in H2.
  lia.
Qed.

Lemma operators_cover_reactors_default :
  (valid_process default_sidebar) /\
  (exists r : DesignResult,
    returns default_sidebar default_rates r /\
    (total_reactors r <= 8 * operators_required r)%Z /\
    (8 * (operators_required r - 1) < total_reactors r)%Z).
Proof.
  assert (V : valid_process default_sidebar) by (solve_valid).
  split; [exact V|].
  exact (operators_cover_reactors default_sidebar default_rates V).
Defined.
(** ** Facts about the returned dictionary used by the tabs *)

Lemma Qdiv_nonneg (a b : Q) : 0 <= a -> 0 < b -> 0 <= a / b.
Proof.
  intros Ha Hb. unfold Qdiv. apply Qmult_le_0_compat; [exact Ha|].
  apply Qlt_le_weak. now apply Qinv_lt_0_compat.
Qed.

Lemma capex_pos (a gc p fc ph pf e R G P A H : Q) :
  0 <= a -> 0 <= gc -> 0 <= p -> 0 <= fc -> 0 < ph -> 0 <= pf -> 0 <= e ->
  0 <= R -> 0 <= G -> 0 <= P -> 0 <= A -> 0 <= H ->
  0 < a * R + G * gc + p * P + fc * A + ph + (a * R + p * P) * pf + H
      + (a * R + G * gc + p * P + fc * A + ph + (a * R + p * P) * pf + H) * e.
Proof.
  intros Ha Hgc Hp Hfc Hph Hpf He HR HG HP HA HH.
  assert (T1 : 0 <= a * R) by nra.
  assert (T2 : 0 <= G * gc) by nra.
  assert (T3 : 0 <= p * P) by nra.
  assert (T4 : 0 <= fc * A) by nra.
  assert (T5 : 0 <= (a * R + p * P) * pf) by nra.
  set (D := a * R + G * gc + p * P + fc * A + ph + (a * R + p * P) * pf + H).
  assert (HD : 0 < D) by (subst D; lra).
  nra.
Qed.

Lemma opex_pos (oz opc el fl ppc rc cb cf ops sal capex mf : Q) :
  0 <= oz -> 0 <= opc -> 0 <= el -> 0 < fl -> 0 <= ppc -> 0 <= rc ->
  0 < cb -> 0 < cf -> 0 <= ops -> 0 <= sal -> 0 <= capex -> 0 <= mf ->
  0 < oz * opc * 30 * el + (fl * ppc + rc * 24 * ppc) * 30 * el
      + fl * 30 * cb * cf + ops * sal + capex * mf / 12.
Proof.
  intros Hoz Hopc Hel Hfl Hppc Hrc Hcb Hcf Hops Hsal Hcapex Hmf.
  assert (T1 : 0 <= oz * opc) by nra.
  assert (T1' : 0 <= oz * opc * 30 * el) by nra.
  assert (T2 : 0 <= fl * ppc + rc * 24 * ppc) by nra.
  assert (T2' : 0 <= (fl * ppc + rc * 24 * ppc) * 30 * el) by nra.
  assert (T3 : 0 < fl * 30 * cb) by nra.
  assert (T3' : 0 < fl * 30 * cb * cf) by nra.
  assert (T4 : 0 <= ops * sal) by nra.
  assert (T5 : 0 <= capex * mf / 12)
    by (apply Qdiv_nonneg; [nra | reflexivity]).
  lra.
Qed.

Lemma design_facts (g : Sidebar.t) (c : Rates.t) :
  valid_process g -> valid_rates g c -> valid_costs g ->
  exists r : DesignResult,
    returns g c r /\
    (flowrate r = Sidebar.flowrate g /\
     cod_inlet r = Sidebar.cod_inlet g /\
     cod_target r = Sidebar.cod_target g /\
     php_conversion_rate r = Sidebar.php_conversion_rate g) /\
    (0 < total_capex r /\ 0 < total_monthly_opex r) /\
    (Qsum (map snd (capex_items r)) == total_capex r /\
     Qsum (map snd (opex_items r)) == total_monthly_opex r) /\
    (monthly_ozone_power_cost r
       == ozone_requirement_kg_per_day r * Rates.ozone_power_consumption c
          * 30 * Sidebar.electricity_cost g /\
     monthly_pumping_cost r
       == (Sidebar.flowrate g * Rates.pump_power_consumption c
           + daily_recirculation_energy r) * 30 * Sidebar.electricity_cost g).
Proof.
  intros Hv Hc [Hel Hphp]. enter_engine g c Hv n Hn cur vals Hrun Hrs.
  eexists. split; [engine_returns n Hrs Hrun|].
  unfold capex_items, opex_items, Qsum.
  project_fields. cbn [map snd fold_right].
  rewrite !np_ceil_idem, !int_np_ceil.
  pose proof (size_pos g Hv) as Hsize.
  set (trains :=
         Qceiling (Sidebar.flowrate g / 24 / (Sidebar.reactor_size g / 2))).
  set (stages := Z.max 2 (Z.min 4 (Z.of_nat n))).
  set (funits := Z.max 2 (Qceiling _)).
  fold (housing (Qle_bool (Sidebar.flowrate g) 15)
          (trains * stages + funits)).
  assert (Htrains : (1 <= trains)%Z)
    by (apply Qceiling_pos; now apply ratio_pos).
  assert (Hstages : (2 <= stages <= 4)%Z) by (subst stages; lia).
  pose proof (housing_bounds (Qle_bool (Sidebar.flowrate g) 15)
                (trains * stages + funits)) as ([H20 _] & H40 & _).
  rewrite Zle_Qle in H20, H40. change (inject_Z 0) with 0 in H20, H40.
  destruct Hc as (Ha & Hp & Hfc & Hph & Hgc & Hsal & Hopc & Hppc & Hcb
                  & Hcf & [Hmf _] & [Hpf _] & [He _] & Hc20 & Hc40).
  pose proof Hv as (Hflow & Htarget & Hinlet & _).
  assert (HR : 0 <= inject_Z (trains * stages))
    by (change 0 with (inject_Z 0); rewrite <- Zle_Qle; nia).
  assert (HG : 0 <= inject_Z (trains * stages * 2))
    by (change 0 with (inject_Z 0); rewrite <- Zle_Qle; nia).
  assert (HP : 0 <= inject_Z (trains * 4 + 2))
    by (change 0 with (inject_Z 0); rewrite <- Zle_Qle; lia).
  assert (HT : 0 <= inject_Z trains)
    by (change 0 with (inject_Z 0); rewrite <- Zle_Qle; lia).
  assert (HA : 0 <= Sidebar.reactor_size g / 0.25 * inject_Z trains / 10).
  { apply Qdiv_nonneg; [|reflexivity].
    apply Qmult_le_0_compat; [|exact HT].
    apply Qlt_le_weak. apply Qdiv_pos; [exact Hsize | reflexivity]. }
  set (hc := inject_Z (fst (housing _ _)) * Rates.container_20ft_cost c
             + inject_Z (snd (housing _ _)) * Rates.container_40ft_cost c).
  assert (HH : 0 <= hc).
  { subst hc.
    set (a := inject_Z (fst _)) in *. set (b := inject_Z (snd _)) in *. nra. }
  assert (Hcapex :
    0 < Rates.aop_reactor_unit_cost c * inject_Z (trains * stages)
        + inject_Z (trains * stages * 2) * Rates.ozone_generator_unit_cost c
        + Rates.pump_unit_cost c * inject_Z (trains * 4 + 2)
        + Rates.filter_unit_cost c
          * (Sidebar.reactor_size g / 0.25 * inject_Z trains / 10)
        + Rates.ph_adjustment_unit_cost c
        + (Rates.aop_reactor_unit_cost c * inject_Z (trains * stages)
           + Rates.pump_unit_cost c * inject_Z (trains * 4 + 2))
          * Rates.piping_factor c
        + hc
        + (Rates.aop_reactor_unit_cost c * inject_Z (trains * stages)
           + inject_Z (trains * stages * 2) * Rates.ozone_generator_unit_cost c
           + Rates.pump_unit_cost c * inject_Z (trains * 4 + 2)
           + Rates.filter_unit_cost c
             * (Sidebar.reactor_size g / 0.25 * inject_Z trains / 10)
           + Rates.ph_adjustment_unit_cost c
           + (Rates.aop_reactor_unit_cost c * inject_Z (trains * stages)
              + Rates.pump_unit_cost c * inject_Z (trains * 4 + 2))
             * Rates.piping_factor c
           + hc) * Rates.epc_factor c)
    by (apply capex_pos; lra).
  split; [repeat split|].
  split; [split; [exact Hcapex|]|].
  - apply opex_pos; try lra.
    + apply Qmult_le_0_compat; [discriminate|].
      apply Qdiv_nonneg; [nra | reflexivity].
    + apply Qdiv_nonneg; [|reflexivity].
      apply Qmult_le_0_compat; [|discriminate].
      apply Qmult_le_0_compat; [exact HR | lra].
    + change 0 with (inject_Z 0). rewrite <- Zle_Qle. lia.
  - split; [split; ring | split; ring].
Qed.

(** ** CAPEX and OPEX breakdowns (Tab 7) *)

Lemma Qsum_cons (x : Q) (l : list Q) : Qsum (x :: l) = x + Qsum l.
Proof. reflexivity. Qed.

Lemma item_metrics_shares (php total : Q) (items : list (string * Q)) :
  ~ total == 0 ->
  exists rows : list (string * Q * Q),
    item_metrics php total items = Return rows /\
    map (fun row => fst (fst row)) rows = map fst items /\
    Qsum (map (fun row => snd (fst row)) rows)
      == Qsum (map snd items) * php /\
    Qsum (map snd rows) == Qsum (map snd items) / total * 100.
Proof.
  intros Htotal. unfold item_metrics.
  induction items as [|[item cost] items IH]; cbn [mapM map].
  - exists []. cbn [map]. unfold Qsum. cbn [fold_right].
    repeat split; try reflexivity; field; exact Htotal.
  - destruct IH as (rows & Hrows & Hlabels & Hphp & Hshares).
    cbv zeta. cbn [fst snd]. rewrite (truediv_nonzero _ _ Htotal).
    cbn [bind]. rewrite Hrows. cbn [bind].
    eexists. split; [reflexivity|].
    cbn [map fst snd]. rewrite !Qsum_cons.
    split; [now rewrite Hlabels | split].
    + rewrite Hphp. ring.
    + rewrite Hshares. field. exact Htotal.
Qed.

(** X7.  For validated inputs and rates the CAPEX loop of Tab 7 raises
    nothing (the total CAPEX is positive), lists the eight items in
    dictionary order, its peso figures add up to the total CAPEX in pesos
    and its percentage shares add up to 100. *)
Theorem capex_shares_sum_to_100 (g : Sidebar.t) (c : Rates.t) :
  valid_process g -> valid_rates g c -> valid_costs g ->
  exists (r : DesignResult) (rows : list (string * Q * Q)),
    returns g c r /\
    capex_metrics g r = Return rows /\
    map (fun row => fst (fst row)) rows
      = [ "AOP Reactors"; "Ozone Generators"; "Pumping Equipment";
          "Sand Filtration"; "pH Adjustment"; "Container Housing";
          "Piping & Instrumentation"; "EPC" ]%string /\
    Qsum (map (fun row => snd (fst row)) rows)
      == total_capex r * Sidebar.php_conversion_rate g /\
    Qsum (map snd rows) == 100.
Proof.
  intros Hv Hc Hk.
  destruct (design_facts g c Hv Hc Hk)
    as (r & Hr & _ & [Hcapex _] & [Hsum _] & _).
  assert (Hnz : ~ total_capex r == 0) by lra.
  destruct (item_metrics_shares (Sidebar.php_conversion_rate g)
              (total_capex r) (capex_items r) Hnz)
    as (rows & Hrows & Hlabels & Hphp & Hshares).
  exists r, rows. split; [exact Hr | split; [exact Hrows | split]].
  - exact Hlabels.
  - split; [now rewrite Hphp, Hsum|].
    rewrite Hshares, Hsum. field. exact Hnz.
Qed.

Lemma capex_shares_default :
  (valid_process default_sidebar /\
   valid_rates default_sidebar default_rates /\
   valid_costs default_sidebar) /\
  (exists (r : DesignResult) (rows : list (string * Q * Q)),
    returns default_sidebar default_rates r /\
    capex_metrics default_sidebar r = Return rows /\
    map (fun row => fst (fst row)) rows
      = [ "AOP Reactors"; "Ozone Generators"; "Pumping Equipment";
          "Sand Filtration"; "pH Adjustment"; "Container Housing";
          "Piping & Instrumentation"; "EPC" ]%string /\
    Qsum (map (fun row => snd (fst row)) rows)
      == total_capex r * Sidebar.php_conversion_rate default_sidebar /\
    Qsum (map snd rows) == 100).
Proof.
  assert (V : valid_process default_sidebar) by (solve_valid).
  assert (R : valid_rates default_sidebar default_rates) by (solve_valid).
  assert (K : valid_costs default_sidebar) by (split; reflexivity).
  split; [split; [exact V | split; [exact R | exact K]]|].
  exact (capex_shares_sum_to_100 default_sidebar default_rates V R K).
Defined.



(** ** Landing page figures (Tab 1) *)



(** X10.  The daily energy shown on the landing page uses the fixed
    rates 3 kWh/kg and 0.05 kWh/m3, not the rates passed to the engine:
    the monthly energy cost shown beside it differs from the shown daily
    energy priced over 30 days by the two rate differences, and agrees
    with it when both rates are at these values. *)
Theorem displayed_energy_assumes_default_rates
    (g : Sidebar.t) (c : Rates.t) :
  valid_process g ->
  exists r : DesignResult,
    returns g c r /\
    monthly_energy_cost_php r
    == (total_daily_energy r
        + ozone_requirement_kg_per_day r
          * (Rates.ozone_power_consumption c - 3)
        + Sidebar.flowrate g * (Rates.pump_power_consumption c - 0.05))
       * 30 * Sidebar.electricity_cost g * Sidebar.php_conversion_rate g /\
    (Rates.ozone_power_consumption c == 3 ->
     Rates.pump_power_consumption c == 0.05 ->
     monthly_energy_cost_php r
     == total_daily_energy r * 30 * Sidebar.electricity_cost g
        * Sidebar.php_conversion_rate g).
Proof.
  intros Hv. enter_engine g c Hv n Hn cur vals Hrun Hrs.
  eexists. split; [engine_returns n Hrs Hrun|].
  unfold monthly_energy_cost_php, total_daily_energy. project_fields.
  split; [ring|].
  intros Hopc Hppc. rewrite Hopc, Hppc. ring.
Qed.

Lemma displayed_energy_default :
  (valid_process default_sidebar) /\
  (exists r : DesignResult,
    returns default_sidebar default_rates r /\
    monthly_energy_cost_php r
    == (total_daily_energy r
        + ozone_requirement_kg_per_day r
          * (Rates.ozone_power_consumption default_rates - 3)
        + Sidebar.flowrate default_sidebar * (Rates.pump_power_consumption default_rates - 0.05))
       * 30 * Sidebar.electricity_cost default_sidebar * Sidebar.php_conversion_rate default_sidebar /\
    (Rates.ozone_power_consumption default_rates == 3 ->
     Rates.pump_power_consumption default_rates == 0.05 ->
     monthly_energy_cost_php r
     == total_daily_energy r * 30 * Sidebar.electricity_cost default_sidebar
        * Sidebar.php_conversion_rate default_sidebar)).
Proof.
  assert (V : valid_process default_sidebar) by (solve_valid).
  split; [exact V|].
  exact (displayed_energy_assumes_default_rates
           default_sidebar default_rates V).
Defined.

(** X11.  The "Total Bid Price" of the landing page is the total CAPEX in
    pesos times 1.232 (CAPEX, 10 % contingency and 12 % tax on 110 %),
    and Tab 7 shows the same figure. *)
Theorem bid_price_is_capex_times_1232 (g : Sidebar.t) (c : Rates.t) :
  valid_process g ->
  exists r : DesignResult,
    returns g c r /\
    total_bid_price_php r
      == total_capex r * Sidebar.php_conversion_rate g * 1.232 /\
    bid_price_with_tax_and_contingency g r == total_bid_price_php r.
Proof.
  intros Hv. enter_engine g c Hv n Hn cur vals Hrun Hrs.
  eexists. split; [engine_returns n Hrs Hrun|].
  unfold total_bid_price_php, bid_price_with_tax_and_contingency.
  cbv zeta. project_fields.
  split; ring.
Qed.

Lemma bid_price_default :
  (valid_process default_sidebar) /\
  (exists r : DesignResult,
    returns default_sidebar default_rates r /\
    total_bid_price_php r
      == total_capex r * Sidebar.php_conversion_rate default_sidebar * 1.232 /\
    bid_price_with_tax_and_contingency default_sidebar r == total_bid_price_php r).
Proof.
  assert (V : valid_process default_sidebar) by (solve_valid).
  split; [exact V|].
  exact (bid_price_is_capex_times_1232 default_sidebar default_rates V).
Defined.

(** ** Financial analysis (Tab 7) *)

Lemma financial_analysis_defined (g : Sidebar.t) (dv : DesignResult)
    (years : Z) :
  flowrate dv = Sidebar.flowrate g ->
  0 < Sidebar.flowrate g -> 0 < Sidebar.php_conversion_rate g ->
  (1 <= years)%Z ->
  exists f : Financials,
    financial_analysis g dv years = Return f /\
    annual_opex f = total_monthly_opex dv * 12 /\
    total_opex_over_lifetime f = annual_opex f * inject_Z years /\
    total_cost_over_lifetime f
      = total_capex dv * 1.232 + total_opex_over_lifetime f /\
    php_total_opex_over_lifetime f
      = total_opex_over_lifetime f * Sidebar.php_conversion_rate g /\
    php_total_cost_over_lifetime f
      = total_cost_over_lifetime f * Sidebar.php_conversion_rate g /\
    total_volume_treated f = Sidebar.flowrate g * 365 * inject_Z years /\
    cost_per_cubic_meter f
      = total_cost_over_lifetime f / total_volume_treated f /\
    opex_cost_per_liter_php f
      = annual_opex f * Sidebar.php_conversion_rate g / 365
        / Sidebar.flowrate g / 1000 /\
    opex_cost_per_cubic_meter_usd f
      = annual_opex f * Sidebar.php_conversion_rate g / 365
        / Sidebar.flowrate g / Sidebar.php_conversion_rate g.
Proof.
  intros Hecho Hflow Hphp Hyears.
  assert (Hy : 1 <= inject_Z years)
    by (change 1 with (inject_Z 1); now rewrite <- Zle_Qle).
  assert (Hvol : ~ Sidebar.flowrate g * 365 * inject_Z years == 0).
  { set (y := inject_Z years) in *. set (fl := Sidebar.flowrate g) in *.
    intros H. nra. }
  unfold financial_analysis. cbv zeta. rewrite Hecho.
  rewrite (truediv_nonzero _ _ Hvol). cbn [bind].
  rewrite truediv_nonzero by lra. cbn [bind].
  rewrite truediv_nonzero by lra. cbn [bind].
  eexists. split; [reflexivity|].
  cbn [annual_opex total_opex_over_lifetime total_cost_over_lifetime
       php_annual_opex php_total_opex_over_lifetime
       php_total_cost_over_lifetime total_volume_treated cost_per_cubic_meter
       php_cost_per_cubic_meter opex_cost_per_liter_php
       opex_cost_per_cubic_meter_usd].
  repeat split.
Qed.




(** X13.  The treatment cost per cubic metre of the landing page divides
    the monthly OPEX by 30 days, the OpEx-based cost of Tab 7 divides
    twelve months by 365 days: the first is 365/360 of the second. *)
Theorem treatment_cost_uses_360_day_year (g : Sidebar.t) (c : Rates.t)
    (years : Z) :
  valid_process g -> valid_rates g c -> valid_costs g -> (1 <= years)%Z ->
  exists (r : DesignResult) (f : Financials) (t : Q),
    returns g c r /\
    financial_analysis g r years = Return f /\
    treatment_cost_per_m3 r = Return t /\
    0 < t /\
    t * 360 == opex_cost_per_liter_php f * 1000 * 365.
Proof.
  intros Hv Hc Hk Hyears.
  destruct (design_facts g c Hv Hc Hk)
    as (r & Hr & (Hflow & _ & _ & Hphp) & [Hcapex Hopex] & _).
  pose proof Hv as (Hfl & _). pose proof Hk as (_ & Hrate).
  destruct (financial_analysis_defined g r years Hflow Hfl Hrate Hyears)
    as (f & Hf & Ea & _ & _ & _ & _ & _ & _ & Eliter & _).
  exists r, f. eexists. split; [exact Hr | split; [exact Hf|]].
  unfold treatment_cost_per_m3. cbv zeta. rewrite Hflow, Hphp.
  rewrite truediv_nonzero by lra.
  split; [reflexivity|].
  split.
  - apply Qdiv_pos; [|exact Hfl]. apply Qdiv_pos; [|reflexivity].
    apply Qmult_lt_0_compat; assumption.
  - rewrite Eliter, Ea. field. lra.
Qed.

Lemma treatment_cost_default :
  (valid_process default_sidebar /\
   valid_rates default_sidebar default_rates /\
   valid_costs default_sidebar /\
   (1 <= 10)%Z) /\
  (exists (r : DesignResult) (f : Financials) (t : Q),
    returns default_sidebar default_rates r /\
    financial_analysis default_sidebar r 10%Z = Return f /\
    treatment_cost_per_m3 r = Return t /\
    0 < t /\
    t * 360 == opex_cost_per_liter_php f * 1000 * 365).
Proof.
  assert (V : valid_process default_sidebar) by (solve_valid).
  assert (R : valid_rates default_sidebar default_rates) by (solve_valid).
  assert (K : valid_costs default_sidebar) by (split; reflexivity).
  assert (Y : (1 <= 10)%Z) by (lia).
  split; [split; [exact V | split; [exact R | split; [exact K | exact Y]]]|].
  exact (treatment_cost_uses_360_day_year default_sidebar default_rates
           10%Z V R K Y).
Defined.

(** ** COD reduction table and train diagram (Tab 1, Tab 6) *)




Lemma staging_facts (g : Sidebar.t) (c : Rates.t) :
  valid_process g ->
  exists (r : DesignResult) (n : nat),
    returns g c r /\
    Forall2 Qeq (cod_reduction_stages r)
      (geometric_stages (Sidebar.cod_inlet g) n) /\
    (stages_needed r = 2 \/ stages_needed r = 3 \/ stages_needed r = 4)%Z.
Proof.
  intros Hv. pose proof (capacity_nonzero g Hv) as Hrs.
  destruct (natural_stage_count_exists (Sidebar.cod_inlet g)
              (Sidebar.cod_target g) (proj1 (proj2 Hv))) as [n Hn].
  destruct (staging_exit g n Hn) as (cur & vals & Hrun & Hvals).
  eexists. exists n. split; [engine_returns n Hrs Hrun|].
  project_fields. split; [exact Hvals | lia].
Qed.



(** X15.  For validated inputs the reactor train diagram is one of three
    strings, for 2, 3 or 4 stages: it opens with the influent and closes
    with the effluent after the last reactor. *)
Theorem reactor_train_diagram_is_closed (g : Sidebar.t) (c : Rates.t) :
  valid_process g ->
  exists r : DesignResult,
    returns g c r /\
    ((stages_needed r = 2%Z /\
      reactor_train_diagram (stages_needed r)
      = "Influent → [AOP Reactor 1] → [AOP Reactor 2] → Effluent"%string)
     \/
     (stages_needed r = 3%Z /\
      reactor_train_diagram (stages_needed r)
      = "Influent → [AOP Reactor 1] → [AOP Reactor 2] → [AOP Reactor 3] → Effluent"%string)
     \/
     (stages_needed r = 4%Z /\
      reactor_train_diagram (stages_needed r)
      = "Influent → [AOP Reactor 1] → [AOP Reactor 2] → [AOP Reactor 3] → [AOP Reactor 4] → Effluent"%string)).
Proof.
  intros Hv.
  destruct (staging_facts g c Hv) as (r & n & Hr & _ & Hstages).
  exists r. split; [exact Hr|].
  destruct Hstages as [H | [H | H]]; rewrite H;
    [left | right; left | right; right]; split; reflexivity.
Qed.

Lemma reactor_train_diagram_default :
  (valid_process default_sidebar) /\
  (exists r : DesignResult,
    returns default_sidebar default_rates r /\
    ((stages_needed r = 2%Z /\
      reactor_train_diagram (stages_needed r)
      = "Influent → [AOP Reactor 1] → [AOP Reactor 2] → Effluent"%string)
     \/
     (stages_needed r = 3%Z /\
      reactor_train_diagram (stages_needed r)
      = "Influent → [AOP Reactor 1] → [AOP Reactor 2] → [AOP Reactor 3] → Effluent"%string)
     \/
     (stages_needed r = 4%Z /\
      reactor_train_diagram (stages_needed r)
      = "Influent → [AOP Reactor 1] → [AOP Reactor 2] → [AOP Reactor 3] → [AOP Reactor 4] → Effluent"%string))).
Proof.
  assert (V : valid_process default_sidebar) by (solve_valid).
  split; [exact V|].
  exact (reactor_train_diagram_is_closed
           default_sidebar default_rates V).
Defined.

(** ** Cost analysis table (Tab 7) *)

(** X16.  For validated inputs and at least one year of operation the
    four columns of the cost analysis table all have 19 entries; the
    "Total CAPEX" row is the sum of the eight CAPEX rows, the "Total
    Monthly OPEX" row the sum of the five OPEX rows, the annual row 12
    times the monthly, the lifetime row the years times the annual, and
    the total lifetime cost 1.232 times the CAPEX row plus the lifetime
    OPEX. *)
Theorem cost_table_rows_add_up (g : Sidebar.t) (c : Rates.t) (years : Z) :
  valid_process g -> valid_rates g c -> valid_costs g -> (1 <= years)%Z ->
  exists (r : DesignResult) (f : Financials),
    returns g c r /\
    financial_analysis g r years = Return f /\
    let table := detailed_cost_data g r years f in
    let cost := fun i : nat => nth i (Cost_PHP table) 0 in
    (length (Component table) = 19 /\ length (Cost_PHP table) = 19 /\
     length (Category table) = 19 /\ length (Notes table) = 19)%nat /\
    nth 8 (Component table) EmptyString = "Total CAPEX"%string /\
    cost 8%nat == Qsum (firstn 8 (Cost_PHP table)) /\
    nth 14 (Component table) EmptyString = "Total Monthly OPEX"%string /\
    cost 14%nat == Qsum (firstn 5 (skipn 9 (Cost_PHP table))) /\
    cost 15%nat == 12 * cost 14%nat /\
    cost 16%nat == inject_Z years * cost 15%nat /\
    cost 17%nat == 1.232 * cost 8%nat + cost 16%nat.
Proof.
  intros Hv Hc Hk Hyears.
  destruct (design_facts g c Hv Hc Hk)
    as (r & Hr & (Hflow & _ & _ & Hphp) & _ & [Hcapex Hopex] & _).
  pose proof Hv as (Hfl & _). pose proof Hk as (_ & Hrate).
  destruct (financial_analysis_defined g r years Hflow Hfl Hrate Hyears)
    as (f & Hf & Ea & El & Et & _).
  exists r, f. split; [exact Hr | split; [exact Hf|]].
  cbv zeta. unfold detailed_cost_data. cbv zeta.
  cbn [Component Cost_PHP Category Notes].
  unfold capex_items, opex_items in *.
  cbn [map fst snd app length repeat nth firstn skipn] in *.
  rewrite !Qsum_cons in *. unfold Qsum in *. cbn [fold_right] in *.
  split; [repeat split|].
  split; [reflexivity|].
  split; [rewrite <- Hcapex; ring|].
  split; [reflexivity|].
  split; [rewrite <- Hopex; ring|].
  rewrite Et, El, Ea.
  repeat split; ring.
Qed.

Lemma cost_table_default :
  (valid_process default_sidebar /\
   valid_rates default_sidebar default_rates /\
   valid_costs default_sidebar /\
   (1 <= 10)%Z) /\
  (exists (r : DesignResult) (f : Financials),
    returns default_sidebar default_rates r /\
    financial_analysis default_sidebar r 10%Z = Return f /\
    let table := detailed_cost_data default_sidebar r 10%Z f in
    let cost := fun i : nat => nth i (Cost_PHP table) 0 in
    (length (Component table) = 19 /\ length (Cost_PHP table) = 19 /\
     length (Category table) = 19 /\ length (Notes table) = 19)%nat /\
    nth 8 (Component table) EmptyString = "Total CAPEX"%string /\
    cost 8%nat == Qsum (firstn 8 (Cost_PHP table)) /\
    nth 14 (Component table) EmptyString = "Total Monthly OPEX"%string /\
    cost 14%nat == Qsum (firstn 5 (skipn 9 (Cost_PHP table))) /\
    cost 15%nat == 12 * cost 14%nat /\
    cost 16%nat == inject_Z 10%Z * cost 15%nat /\
    cost 17%nat == 1.232 * cost 8%nat + cost 16%nat).
Proof.
  assert (V : valid_process default_sidebar) by (solve_valid).
  assert (R : valid_rates default_sidebar default_rates) by (solve_valid).
  assert (K : valid_costs default_sidebar) by (split; reflexivity).
  assert (Y : (1 <= 10)%Z) by (lia).
  split; [split; [exact V | split; [exact R | split; [exact K | exact Y]]]|].
  exact (cost_table_rows_add_up default_sidebar default_rates 10%Z V R K Y).
Defined.
